(** * coub-gui.py: the option-resolution layer of CoubDownloader's GUI

    A shallow embedding of [src/coub-gui.py]: the label tables of
    [GuiDefaultOptions] and [translate_to_cli], the default correction of
    [GuiDefaultOptions.__init__], and the post-processing that [parse_cli]
    applies to the namespace returned by the argument parser (input list,
    archive content, keyword normalization, label translation).

    Python strings are modelled as [string]; a character stands for a code
    point below 256.  [None] is modelled with [option], a [dict] with
    stdpp's [gmap], a [set] with [gset], and a Python [int] with [Z]. *)

From Stdlib Require Import ZArith Ascii String.
From Stdlib Require Import Permutation.
From stdpp Require Import gmap strings list fin_maps.

Local Open Scope Z_scope.

(** ** Python primitives used by the script *)

Module Py.

(** Truth value of a [str]: only the empty string is false. *)
Definition truthy (s : string) : bool :=
  match s with
  | EmptyString => false
  | String _ _ => true
  end.

(** Truth value of an optional [int] ([None] and [0] are false). *)
Definition truthy_int (n : option Z) : bool :=
  match n with
  | None => false
  | Some z => negb (z =? 0)
  end.

(** [s.split(sep)] for a one-character separator: the result always has
    one more element than [s] has separators. *)
Fixpoint split (sep : ascii) (s : string) : list string :=
  match s with
  | EmptyString => [EmptyString]
  | String c rest =>
      if Ascii.eqb c sep then EmptyString :: split sep rest
      else match split sep rest with
           | [] => [String c EmptyString]
           | tok :: toks => String c tok :: toks
           end
  end.

(** [sep.join(l)] for a one-character separator. *)
Fixpoint join (sep : ascii) (l : list string) : string :=
  match l with
  | [] => EmptyString
  | [tok] => tok
  | tok :: toks => tok +:+ String sep (join sep toks)
  end.

(** [c.isspace()] on the code points below 256: TAB, LF, VT, FF, CR,
    FS, GS, RS, US, SPACE, NEL and NBSP. *)
Definition isspace (c : ascii) : bool :=
  let n := nat_of_ascii c in
  ((9 <=? n) && (n <=? 13) || (28 <=? n) && (n <=? 32)
   || (n =? 133) || (n =? 160))%nat.

Fixpoint lstrip (s : string) : string :=
  match s with
  | EmptyString => EmptyString
  | String c rest => if isspace c then lstrip rest else s
  end.

(** Strips trailing whitespace: [rstrip] of the tail decides whether the
    head survives. *)
Fixpoint rstrip (s : string) : string :=
  match s with
  | EmptyString => EmptyString
  | String c rest =>
      match rstrip rest with
      | EmptyString => if isspace c then EmptyString else String c EmptyString
      | r => String c r
      end
  end.

(** [s.strip()] without arguments. *)
Definition strip (s : string) : string := rstrip (lstrip s).

(** [l[i]] on a list: a negative index counts from the end, an index out
    of range raises [IndexError] (here [None]). *)
Definition getitem {A : Type} (l : list A) (i : Z) : option A :=
  let n := Z.of_nat (length l) in
  let j := if i <? 0 then i + n else i in
  if (j <? 0) || (n <=? j) then None else l !! Z.to_nat j.

(** [list.extend] and [list.append]. *)
Definition extend {A : Type} (l xs : list A) : list A := l ++ xs.
Definition append {A : Type} (l : list A) (x : A) : list A := l ++ [x].

(** [for _ in range(n): l.append(x)]; [range] of a negative number is
    empty. *)
Fixpoint append_times {A : Type} (n : nat) (l : list A) (x : A) : list A :=
  match n with
  | O => l
  | S k => append_times k (append l x) x
  end.

Definition for_range_append {A : Type} (n : Z) (l : list A) (x : A) : list A :=
  append_times (Z.to_nat n) l x.

End Py.

(** ** Label tables *)

(** Class attributes of [GuiDefaultOptions]: code -> display label. *)
Module GuiDefaultOptions.

Definition QUALITY_LABEL : list string := ["Worst quality"; "Best quality"].
Definition AAC_LABEL : list string :=
  ["Only MP3"; "No Bias"; "Prefer AAC"; "Only AAC"].
Definition RECOUB_LABEL : list string :=
  ["No Recoubs"; "With Recoubs"; "Only Recoubs"].
Definition SPECIAL_LABEL : gmap (bool * bool * bool) string :=
  <[(false, false, false) := "None"]>
  (<[(true, false, false) := "Share"]>
  (<[(false, true, false) := "Video only"]>
  (<[(false, false, true) := "Audio only"]> ∅))).

End GuiDefaultOptions.

(** Local tables of [translate_to_cli]: display label -> code. *)
Module TranslateToCli.

Definition QUALITY_LABEL : gmap string Z :=
  <["Worst quality" := 0]> (<["Best quality" := -1]> ∅).
Definition AAC_LABEL : gmap string Z :=
  <["Only MP3" := 0]> (<["No Bias" := 1]>
  (<["Prefer AAC" := 2]> (<["Only AAC" := 3]> ∅))).
Definition RECOUB_LABEL : gmap string Z :=
  <["No Recoubs" := 0]> (<["With Recoubs" := 1]>
  (<["Only Recoubs" := 2]> ∅)).
Definition SPECIAL_LABEL : gmap string (bool * bool * bool) :=
  <["None" := (false, false, false)]>
  (<["Share" := (true, false, false)]>
  (<["Video only" := (false, true, false)]>
  (<["Audio only" := (false, false, true)]> ∅))).

End TranslateToCli.

(** The [choices=] lists that [parse_cli] declares for the dropdown menus. *)
Module Choices.

Definition quality : list string := ["Best quality"; "Worst quality"].
Definition aac : list string :=
  ["Only MP3"; "No Bias"; "Prefer AAC"; "Only AAC"].
Definition recoubs : list string :=
  ["No Recoubs"; "With Recoubs"; "Only Recoubs"].
Definition special : list string :=
  ["None"; "Share"; "Video only"; "Audio only"].

End Choices.


(** ** POSIX [os.path] *)

Module OsPath.

(** [os.path.isabs]: the path starts with a slash. *)
Definition isabs (p : string) : bool :=
  match p with
  | String c _ => Ascii.eqb c "/"
  | EmptyString => false
  end.

Fixpoint endswith_sep (p : string) : bool :=
  match p with
  | EmptyString => false
  | String c EmptyString => Ascii.eqb c "/"
  | String _ rest => endswith_sep rest
  end.

(** [os.path.join(a, b)] with two components. *)
Definition join (a b : string) : string :=
  if isabs b then b
  else if negb (Py.truthy a) || endswith_sep a then a +:+ b
  else a +:+ "/" +:+ b.

End OsPath.

(** ** Defaults *)

(** The attributes of the defaults object that this script reads, as they
    are once [coub.DefaultOptions.__init__] has returned.  [PROMPT] may be
    [None]; [error] is the resolution error flag. *)
Record defaults : Type := mkDefaults {
  PROMPT : option string;
  PATH : string;
  RECOUBS : Z;
  V_QUALITY : Z;
  A_QUALITY : Z;
  AAC : Z;
  SHARE : bool;
  V_ONLY : bool;
  A_ONLY : bool;
  error : bool
}.

Definition set_PROMPT (v : option string) (d : defaults) : defaults :=
  mkDefaults v (PATH d) (RECOUBS d) (V_QUALITY d) (A_QUALITY d) (AAC d)
             (SHARE d) (V_ONLY d) (A_ONLY d) (error d).

Definition set_PATH (v : string) (d : defaults) : defaults :=
  mkDefaults (PROMPT d) v (RECOUBS d) (V_QUALITY d) (A_QUALITY d) (AAC d)
             (SHARE d) (V_ONLY d) (A_ONLY d) (error d).

Definition set_error (v : bool) (d : defaults) : defaults :=
  mkDefaults (PROMPT d) (PATH d) (RECOUBS d) (V_QUALITY d) (A_QUALITY d)
             (AAC d) (SHARE d) (V_ONLY d) (A_ONLY d) v.

(** [self.PROMPT not in {"yes", "no"}]. *)
Definition prompt_not_in_yes_no (p : option string) : bool :=
  match p with
  | Some s => negb (String.eqb s "yes" || String.eqb s "no")
  | None => true
  end.

(** The body of [GuiDefaultOptions.__init__] after the call of the parent
    constructor; [home] is the value of [os.path.expanduser("~")]. *)
Definition correct_defaults (home : string) (d : defaults) : defaults :=
  let d1 := if prompt_not_in_yes_no (PROMPT d)
            then set_PROMPT (Some "no") d else d in
  if negb (OsPath.isabs (PATH d1))
  then set_PATH (OsPath.join home "coubs") d1
  else d1.

(** Modelled from the spec: [coub.DefaultOptions.__init__] lives in
    coub.py, which is not part of the sources at hand.  Configuration
    entries are applied over the built-in constants, the first entry that
    defines an option wins for that option, and a malformed entry is
    recorded in the error flag instead of being raised. *)
Inductive config_entry : Type :=
| CfgPrompt (v : option string)
| CfgPath (v : string)
| CfgMalformed.

Definition apply_entry (e : config_entry) (d : defaults) : defaults :=
  match e with
  | CfgPrompt v => set_PROMPT v d
  | CfgPath v => set_PATH v d
  | CfgMalformed => set_error true d
  end.

Fixpoint DefaultOptions_init (builtin : defaults) (cfg : list config_entry)
  : defaults :=
  match cfg with
  | [] => builtin
  | e :: rest => apply_entry e (DefaultOptions_init builtin rest)
  end.

(** [GuiDefaultOptions()]. *)
Definition GuiDefaultOptions_init (home : string) (builtin : defaults)
    (cfg : list config_entry) : defaults :=
  correct_defaults home (DefaultOptions_init builtin cfg).

(** The default labels that [parse_cli] hands to the dropdown menus:
    [defs.QUALITY_LABEL[defs.V_QUALITY]] and the like. *)
Definition default_v_quality (d : defaults) : option string :=
  Py.getitem GuiDefaultOptions.QUALITY_LABEL (V_QUALITY d).
Definition default_a_quality (d : defaults) : option string :=
  Py.getitem GuiDefaultOptions.QUALITY_LABEL (A_QUALITY d).
Definition default_aac (d : defaults) : option string :=
  Py.getitem GuiDefaultOptions.AAC_LABEL (AAC d).
Definition default_recoubs (d : defaults) : option string :=
  Py.getitem GuiDefaultOptions.RECOUB_LABEL (RECOUBS d).
Definition default_special (d : defaults) : option string :=
  GuiDefaultOptions.SPECIAL_LABEL !! (SHARE d, V_ONLY d, A_ONLY d).

(** ** The namespace returned by the argument parser *)

(** The attributes of [args] that the code after [parser.parse_args()]
    reads or rewrites.  The remaining scalar options (prompt, repeat,
    duration, connections, ...) pass through untouched and are left out. *)
Record Namespace : Type := mkNamespace {
  urls : string;
  ids : string;
  lists : string;
  channels : string;
  tags : string;
  searches : string;
  communities : string;
  stories : string;
  hot : bool;
  random : option Z;
  archive : option string;
  name_template : option string;
  tag_sep : option string;
  fallback_char : option string;
  v_quality : string;
  a_quality : string;
  aac : string;
  recoubs : string;
  special : string
}.

Definition set_name_template (v : option string) (a : Namespace) : Namespace :=
  match a with
  | mkNamespace u i l c t s m o h r ar _ ts fc vq aq ac rc sp =>
      mkNamespace u i l c t s m o h r ar v ts fc vq aq ac rc sp
  end.

Definition set_tag_sep (v : option string) (a : Namespace) : Namespace :=
  match a with
  | mkNamespace u i l c t s m o h r ar nt _ fc vq aq ac rc sp =>
      mkNamespace u i l c t s m o h r ar nt v fc vq aq ac rc sp
  end.

Definition set_fallback_char (v : option string) (a : Namespace) : Namespace :=
  match a with
  | mkNamespace u i l c t s m o h r ar nt ts _ vq aq ac rc sp =>
      mkNamespace u i l c t s m o h r ar nt ts v vq aq ac rc sp
  end.

(** ** Input sources *)

(** An element of [args.input]: either a bare [str] or an instance of one
    of the container classes of coub.py. *)
Inductive input_item : Type :=
| Str (s : string)
| LinkList (s : string)
| Channel (s : string)
| Tag (s : string)
| Search (s : string)
| Community (s : string)
| Story (s : string)
| HotSection
| RandomCategory.

(** The payload an element carries, if any. *)
Definition payload (x : input_item) : option string :=
  match x with
  | Str s | LinkList s | Channel s | Tag s | Search s | Community s
  | Story s => Some s
  | HotSection | RandomCategory => None
  end.

(** Instances of a container class, as opposed to a bare [str]. *)
Definition is_container (x : input_item) : bool :=
  match x with
  | Str _ => false
  | _ => true
  end.

(** [[t for t in field.split(",") if t]]. *)
Definition field_tokens (field : string) : list string :=
  filter (fun t => Py.truthy t = true) (Py.split "," field).

(** The statements of [parse_cli] that fill [args.input];
    [mapped_input] is [coub.mapped_input]. *)
Definition build_input (mapped_input : string -> input_item)
    (a : Namespace) : list input_item :=
  let input := [] in
  let input := Py.extend input (map mapped_input (field_tokens (urls a))) in
  let input := Py.extend input (map Str (field_tokens (ids a))) in
  let input := Py.extend input (map LinkList (field_tokens (lists a))) in
  let input := Py.extend input (map Channel (field_tokens (channels a))) in
  let input := Py.extend input (map Tag (field_tokens (tags a))) in
  let input := Py.extend input (map Search (field_tokens (searches a))) in
  let input := Py.extend input (map Community (field_tokens (communities a))) in
  let input := Py.extend input (map Story (field_tokens (stories a))) in
  let input := if hot a then Py.append input HotSection else input in
  match random a with
  | Some n =>
      if Py.truthy_int (Some n)
      then Py.for_range_append n input RandomCategory
      else input
  | None => input
  end.

(** ** Outcomes, exit statuses and the file system *)

(** Modelled from the spec: [coub.ExitCodes] is declared in coub.py, which
    is not part of the sources at hand.  [OPT] is the dedicated status for
    an option error; the engine's runtime statuses are separate members. *)
Inductive ExitCodes : Type :=
| OPT
| EngineStatus (n : nat).

Inductive exn : Type :=
| KeyError
| IndexError
| OSError.

(** How a piece of the script ends: normally, through [sys.exit], or with
    an uncaught exception. *)
Inductive outcome (A : Type) : Type :=
| Done (a : A)
| Exit (code : ExitCodes)
| Raised (e : exn).

Arguments Done {A} a.
Arguments Exit {A} code.
Arguments Raised {A} e.

(** What a path names: [File content] is a regular file that can be
    opened for reading and whose decoded text is [content]; [Dir] is a
    directory. *)
Inductive node : Type :=
| File (content : string)
| Dir.

(** [os.path.exists]. *)
Definition exists_path (fs : gmap string node) (p : string) : bool :=
  match fs !! p with
  | Some _ => true
  | None => false
  end.

(** [open(p, "r")] followed by reading the whole text: the file system is
    handed back as it was. *)
Definition open_read (fs : gmap string node) (p : string)
  : gmap string node * outcome string :=
  match fs !! p with
  | Some (File content) => (fs, Done content)
  | Some Dir => (fs, Raised OSError)
  | None => (fs, Raised OSError)
  end.

(** Text mode translates CR LF and a lone CR to LF. *)
Fixpoint universal_newlines (s : string) : string :=
  match s with
  | EmptyString => EmptyString
  | String c rest =>
      if Ascii.eqb c "013" then
        match rest with
        | String c' rest' =>
            if Ascii.eqb c' "010"
            then String "010" (universal_newlines rest')
            else String "010" (universal_newlines rest)
        | EmptyString => String "010" EmptyString
        end
      else String c (universal_newlines rest)
  end.

(** Iterating over a text file: every line keeps its terminating LF, the
    last one has none when the file does not end in LF. *)
Fixpoint file_lines (s : string) : list string :=
  match s with
  | EmptyString => []
  | String c rest =>
      if Ascii.eqb c "010" then String c EmptyString :: file_lines rest
      else match file_lines rest with
           | [] => [String c EmptyString]
           | l :: ls => String c l :: ls
           end
  end.

(** [{l.strip() for l in f}]. *)
Definition stripped_lines (content : string) : gset string :=
  list_to_set (map Py.strip (file_lines (universal_newlines content))).

(** The archive block of [parse_cli]. *)
Definition load_archive (fs : gmap string node) (archive : option string)
  : gmap string node * outcome (gset string) :=
  match archive with
  | Some p =>
      if Py.truthy p && exists_path fs p then
        match open_read fs p with
        | (fs', Done content) => (fs', Done (stripped_lines content))
        | (fs', Exit code) => (fs', Exit code)
        | (fs', Raised e) => (fs', Raised e)
        end
      else (fs, Done ∅)
  | None => (fs, Done ∅)
  end.

(** ** Keyword normalization *)

(** [if args.name_template == "%id%": args.name_template = None]. *)
Definition normalize_name_template (a : Namespace) : Namespace :=
  match name_template a with
  | Some t => if String.eqb t "%id%" then set_name_template None a else a
  | None => a
  end.

(** [if args.tag_sep == "space": args.tag_sep = " "]. *)
Definition normalize_tag_sep (a : Namespace) : Namespace :=
  match tag_sep a with
  | Some t => if String.eqb t "space" then set_tag_sep (Some " ") a else a
  | None => a
  end.

(** [if args.fallback_char is None: ... elif args.fallback_char == "space": ...]. *)
Definition normalize_fallback_char (a : Namespace) : Namespace :=
  match fallback_char a with
  | None => set_fallback_char (Some "") a
  | Some t => if String.eqb t "space" then set_fallback_char (Some " ") a else a
  end.

(** The three statements in the order of the source. *)
Definition normalize (a : Namespace) : Namespace :=
  normalize_fallback_char (normalize_tag_sep (normalize_name_template a)).

(** The two branches of the last statement taken as rules of their own. *)
Definition fallback_unset_rule (a : Namespace) : Namespace :=
  match fallback_char a with
  | None => set_fallback_char (Some "") a
  | Some _ => a
  end.

Definition fallback_space_rule (a : Namespace) : Namespace :=
  match fallback_char a with
  | Some t => if String.eqb t "space" then set_fallback_char (Some " ") a else a
  | None => a
  end.

(** The rewrites as a list of rules, and their application from left to
    right. *)
Definition rules : list (Namespace -> Namespace) :=
  [normalize_name_template; normalize_tag_sep;
   fallback_unset_rule; fallback_space_rule].

Definition apply_rules (rs : list (Namespace -> Namespace)) (a : Namespace)
  : Namespace :=
  fold_left (fun acc r => r acc) rs a.

(** ** [translate_to_cli] *)

Record codes : Type := mkCodes {
  c_v_quality : Z;
  c_a_quality : Z;
  c_aac : Z;
  c_recoubs : Z;
  c_share : bool;
  c_v_only : bool;
  c_a_only : bool
}.

(** The five lookups of [translate_to_cli]; a label missing from its table
    raises [KeyError] (here [None]). *)
Definition translate_to_cli (a : Namespace) : option codes :=
  vq ← TranslateToCli.QUALITY_LABEL !! v_quality a;
  aq ← TranslateToCli.QUALITY_LABEL !! a_quality a;
  ac ← TranslateToCli.AAC_LABEL !! aac a;
  rc ← TranslateToCli.RECOUB_LABEL !! recoubs a;
  sp ← TranslateToCli.SPECIAL_LABEL !! special a;
  Some (mkCodes vq aq ac rc sp.1.1 sp.1.2 sp.2).

(** What [parse_cli] returns: the namespace after normalization, with the
    two attributes added to it and the label fields replaced by codes. *)
Record Options : Type := mkOptions {
  opt_args : Namespace;
  opt_input : list input_item;
  opt_archive_content : gset string;
  opt_codes : codes
}.

(** ** The script as a process *)

(** The steps of the script that are visible from outside, in the order in
    which they happen. *)
Inductive event : Type :=
| EvDefaults      (* GuiDefaultOptions() *)
| EvForm          (* GooeyParser(...) and its add_argument calls *)
| EvParseArgs     (* parser.parse_args() *)
| EvInput         (* args.input is filled *)
| EvArchive       (* args.archive_content is set *)
| EvEngine.       (* coub.main() *)

Record world : Type := mkWorld {
  w_fs : gmap string node;
  w_trace : list event
}.

(** A computation over the world that ends in an [outcome]. *)
Definition proc (A : Type) : Type := world -> world * outcome A.

Definition proc_ret {A : Type} (a : A) : proc A := fun w => (w, Done a).

Definition proc_bind {A B : Type} (m : proc A) (k : A -> proc B) : proc B :=
  fun w =>
    match m w with
    | (w', Done a) => k a w'
    | (w', Exit code) => (w', Exit code)
    | (w', Raised e) => (w', Raised e)
    end.

Notation "'do' x <- m ; k" := (proc_bind m (fun x => k))
  (at level 10, x name, m at level 100, k at level 200).
Notation "m ;; k" := (proc_bind m (fun _ => k))
  (at level 100, k at level 200, right associativity).

Definition emit (e : event) : proc unit :=
  fun w => (mkWorld (w_fs w) (w_trace w ++ [e]), Done tt).

(** [sys.exit(code)]. *)
Definition sys_exit {A : Type} (code : ExitCodes) : proc A :=
  fun w => (w, Exit code).

Definition raise {A : Type} (e : exn) : proc A :=
  fun w => (w, Raised e).

(** What the run depends on besides the file system: the home directory,
    the built-in constants and configuration entries behind
    [GuiDefaultOptions()], [coub.mapped_input], and the namespace that
    [parser.parse_args()] returns for the submitted form (when a value
    fails the parser's own checks, [parse_args] leaves the process by
    itself and none of the code after it runs). *)
Record Env : Type := mkEnv {
  env_home : string;
  env_builtin : defaults;
  env_config : list config_entry;
  env_mapped_input : string -> input_item;
  env_form : Namespace
}.

Definition new_defaults (env : Env) : proc defaults :=
  emit EvDefaults ;;
  proc_ret (GuiDefaultOptions_init (env_home env) (env_builtin env)
                                   (env_config env)).

(** Building the form: the [add_argument] calls look the default labels
    of the menus up in the tables of [defs], the recoub policy first, then
    the two qualities and the AAC bias, the special format last.  A list
    index out of range raises [IndexError], a flag triple missing from the
    dict raises [KeyError]; no other default is computed. *)
Definition build_form (defs : defaults) : proc unit :=
  match default_recoubs defs with
  | None => raise IndexError
  | Some _ =>
      match default_v_quality defs with
      | None => raise IndexError
      | Some _ =>
          match default_a_quality defs with
          | None => raise IndexError
          | Some _ =>
              match default_aac defs with
              | None => raise IndexError
              | Some _ =>
                  match default_special defs with
                  | None => raise KeyError
                  | Some _ => emit EvForm
                  end
              end
          end
      end
  end.

Definition parse_args (env : Env) : proc Namespace :=
  emit EvParseArgs ;; proc_ret (env_form env).

Definition fill_input (env : Env) (args : Namespace) : proc (list input_item) :=
  emit EvInput ;; proc_ret (build_input (env_mapped_input env) args).

Definition read_archive (args : Namespace) : proc (gset string) :=
  fun w =>
    match load_archive (w_fs w) (archive args) with
    | (fs', Done s) => (mkWorld fs' (w_trace w ++ [EvArchive]), Done s)
    | (fs', Exit code) => (mkWorld fs' (w_trace w), Exit code)
    | (fs', Raised e) => (mkWorld fs' (w_trace w), Raised e)
    end.

(** [parse_cli()]. *)
Definition parse_cli (env : Env) : proc Options :=
  do defs <- new_defaults env;
  build_form defs ;;
  do args <- parse_args env;
  if error defs then sys_exit OPT
  else
    do input <- fill_input env args;
    do content <- read_archive args;
    let args := normalize args in
    match translate_to_cli args with
    | Some c => proc_ret (mkOptions args input content c)
    | None => raise KeyError
    end.

(** The [__main__] block: [coub.opts = parse_cli()] and then [coub.main()]. *)
Definition script (env : Env) : proc Options :=
  do opts <- parse_cli env;
  emit EvEngine ;;
  proc_ret opts.

Definition initial_world (fs : gmap string node) : world := mkWorld fs [].

(** A form left blank: the text fields hold the parser's default [""], the
    dropdown menus one of their choices. *)
Definition blank_form : Namespace :=
  mkNamespace "" "" "" "" "" "" "" "" false None None
              (Some "%id%") (Some "_") None
              "Best quality" "Best quality" "No Bias" "With Recoubs" "None".

Definition set_ids (v : string) (a : Namespace) : Namespace :=
  match a with
  | mkNamespace u _ l c t s m o h r ar nt ts fc vq aq ac rc sp =>
      mkNamespace u v l c t s m o h r ar nt ts fc vq aq ac rc sp
  end.

Definition set_channels (v : string) (a : Namespace) : Namespace :=
  match a with
  | mkNamespace u i l _ t s m o h r ar nt ts fc vq aq ac rc sp =>
      mkNamespace u i l v t s m o h r ar nt ts fc vq aq ac rc sp
  end.

(** A field made of separators only. *)
Fixpoint only_separators (s : string) : bool :=
  match s with
  | EmptyString => true
  | String c rest => Ascii.eqb c "," && only_separators rest
  end.

(** How many [RandomCategory] entries a repeat count asks for. *)
Definition random_repeats (r : option Z) : nat :=
  match r with
  | Some n => Z.to_nat n
  | None => O
  end.

(** The line feed as a string, and the archive file of the example. *)
Definition LF : string := String "010" EmptyString.

Definition example_archive : string :=
  "id1" +:+ LF +:+ "id2" +:+ LF +:+ "id1" +:+ LF.

(** Strings of whitespace, strings without a line feed, and the two ends
    of a string. *)
Fixpoint all_space (s : string) : bool :=
  match s with
  | EmptyString => true
  | String c rest => Py.isspace c && all_space rest
  end.

Fixpoint has_lf (s : string) : bool :=
  match s with
  | EmptyString => false
  | String c rest => Ascii.eqb c "010" || has_lf rest
  end.

Definition first_char (s : string) : option ascii :=
  match s with
  | EmptyString => None
  | String c _ => Some c
  end.

Fixpoint last_char (s : string) : option ascii :=
  match s with
  | EmptyString => None
  | String c EmptyString => Some c
  | String _ rest => last_char rest
  end.

(** No whitespace at this end of the string. *)
Definition not_space (c : option ascii) : Prop :=
  match c with
  | Some c => Py.isspace c = false
  | None => True
  end.

(** ** Dropdown defaults and submitted labels *)

(** The [default=] labels of the five dropdown menus. *)
Record menu_labels : Type := mkMenu {
  m_recoubs : string;
  m_v_quality : string;
  m_a_quality : string;
  m_aac : string;
  m_special : string
}.

(** The five table lookups of [parse_cli] that compute these labels, in
    the order of the [add_argument] calls; an [IndexError] or [KeyError]
    is [None]. *)
Definition menu_defaults (d : defaults) : option menu_labels :=
  rc ← default_recoubs d;
  vq ← default_v_quality d;
  aq ← default_a_quality d;
  ac ← default_aac d;
  sp ← default_special d;
  Some (mkMenu rc vq aq ac sp).

(** The namespace of a form whose dropdown menus hold the labels [m]. *)
Definition with_menus (m : menu_labels) (a : Namespace) : Namespace :=
  match a with
  | mkNamespace u i l c t s mm o h r ar nt ts fc _ _ _ _ _ =>
      mkNamespace u i l c t s mm o h r ar nt ts fc
        (m_v_quality m) (m_a_quality m) (m_aac m) (m_recoubs m) (m_special m)
  end.

(** At most one of three flags is set. *)
Definition at_most_one (x y z : bool) : bool :=
  negb (x && y) && negb (x && z) && negb (y && z).

(** The exception of a form that cannot be built: the four list lookups
    come before the dict lookup. *)
Definition form_error (d : defaults) : exn :=
  match default_recoubs d, default_v_quality d, default_a_quality d,
        default_aac d with
  | Some _, Some _, Some _, Some _ => KeyError
  | _, _, _, _ => IndexError
  end.

(** Occurrences of a character in a string. *)
Fixpoint has_char (c : ascii) (s : string) : bool :=
  match s with
  | EmptyString => false
  | String c' rest => Ascii.eqb c' c || has_char c rest
  end.

Fixpoint count_char (c : ascii) (s : string) : nat :=
  match s with
  | EmptyString => O
  | String c' rest =>
      if Ascii.eqb c' c then S (count_char c rest) else count_char c rest
  end.

(** * Properties *)

(** ** Label tables *)

Ltac label_cases :=
  repeat (constructor; [eexists; split; vm_compute; reflexivity|]);
  constructor.

(** C1: every label a dropdown menu offers has one code in the table of
    [translate_to_cli], and the table of [GuiDefaultOptions] maps that code
    back to the label; the key sets of the four tables are the declared
    choices; every triple in the special-format table comes back from its
    label; the quality labels go through the codes 0 and -1. *)
Theorem label_tables_round_trip :
  Forall (fun l => exists c, TranslateToCli.QUALITY_LABEL !! l = Some c
                   /\ Py.getitem GuiDefaultOptions.QUALITY_LABEL c = Some l)
         Choices.quality
  /\ Forall (fun l => exists c, TranslateToCli.AAC_LABEL !! l = Some c
                   /\ Py.getitem GuiDefaultOptions.AAC_LABEL c = Some l)
         Choices.aac
  /\ Forall (fun l => exists c, TranslateToCli.RECOUB_LABEL !! l = Some c
                   /\ Py.getitem GuiDefaultOptions.RECOUB_LABEL c = Some l)
         Choices.recoubs
  /\ Forall (fun l => exists t, TranslateToCli.SPECIAL_LABEL !! l = Some t
                   /\ GuiDefaultOptions.SPECIAL_LABEL !! t = Some l)
         Choices.special
  /\ (dom TranslateToCli.QUALITY_LABEL = list_to_set Choices.quality
      /\ dom TranslateToCli.AAC_LABEL = list_to_set Choices.aac
      /\ dom TranslateToCli.RECOUB_LABEL = list_to_set Choices.recoubs
      /\ dom TranslateToCli.SPECIAL_LABEL = list_to_set Choices.special)
  /\ (forall t : bool * bool * bool,
        match GuiDefaultOptions.SPECIAL_LABEL !! t with
        | Some l => TranslateToCli.SPECIAL_LABEL !! l = Some t
        | None => True
        end)
  /\ (TranslateToCli.QUALITY_LABEL !! "Worst quality" = Some 0
      /\ Py.getitem GuiDefaultOptions.QUALITY_LABEL 0 = Some "Worst quality"
      /\ TranslateToCli.QUALITY_LABEL !! "Best quality" = Some (-1)
      /\ Py.getitem GuiDefaultOptions.QUALITY_LABEL (-1) = Some "Best quality").
Proof.
  split; [ unfold Choices.quality; label_cases |].
  split; [ unfold Choices.aac; label_cases |].
  split; [ unfold Choices.recoubs; label_cases |].
  split; [ unfold Choices.special; label_cases |].
  split.
  { unfold TranslateToCli.QUALITY_LABEL, TranslateToCli.AAC_LABEL,
      TranslateToCli.RECOUB_LABEL, TranslateToCli.SPECIAL_LABEL,
      Choices.quality, Choices.aac, Choices.recoubs, Choices.special.
    rewrite !dom_insert_L, !dom_empty_L. simpl.
    repeat split; set_solver. }
  split.
  { intros [[[] []] []]; vm_compute; exact I || reflexivity. }
  repeat split; vm_compute; reflexivity.
Qed.

(** The default label of a quality menu translates back to the default
    code when that code is one of the two sentinels. *)
Lemma default_quality_translates_back (d : defaults) (l : string) :
  V_QUALITY d = 0 \/ V_QUALITY d = -1 ->
  default_v_quality d = Some l ->
  TranslateToCli.QUALITY_LABEL !! l = Some (V_QUALITY d).
Proof.
  unfold default_v_quality.
  intros [->| ->] Hl; vm_compute in Hl; injection Hl as <-;
    vm_compute; reflexivity.
Qed.

(** ** Splitting a field *)

Lemma split_not_nil (sep : ascii) (s : string) : Py.split sep s <> [].
Proof.
  destruct s as [|c rest]; simpl; [discriminate|].
  destruct (Ascii.eqb c sep); [discriminate|].
  destruct (Py.split sep rest); discriminate.
Qed.

Lemma join_cons (sep : ascii) (tok : string) (toks : list string) :
  toks <> [] ->
  Py.join sep (tok :: toks) = tok +:+ String sep (Py.join sep toks).
Proof. destruct toks; [congruence | reflexivity]. Qed.

Lemma join_cons_char (sep c : ascii) (tok : string) (toks : list string) :
  Py.join sep (String c tok :: toks) = String c (Py.join sep (tok :: toks)).
Proof. destruct toks; reflexivity. Qed.

(** Splitting loses nothing: joining the tokens with the separator gives
    the field back. *)
Lemma join_split (sep : ascii) (s : string) :
  Py.join sep (Py.split sep s) = s.
Proof.
  induction s as [|c rest IH]; simpl; [reflexivity|].
  destruct (Ascii.eqb_spec c sep) as [->|Hne].
  - rewrite join_cons by apply split_not_nil. now rewrite IH.
  - pose proof (split_not_nil sep rest) as Hnil.
    destruct (Py.split sep rest) as [|tok toks]; [congruence|].
    rewrite join_cons_char. now rewrite IH.
Qed.

Lemma truthy_true (t : string) : Py.truthy t = true <-> t <> "".
Proof. destruct t; simpl; split; congruence. Qed.

Lemma elem_of_field_tokens (field t : string) :
  t ∈ field_tokens field <-> t ∈ Py.split "," field /\ t <> "".
Proof.
  unfold field_tokens. rewrite list_elem_of_filter, truthy_true. tauto.
Qed.

Lemma field_tokens_separators (field : string) :
  only_separators field = true -> field_tokens field = [].
Proof.
  unfold field_tokens.
  induction field as [|c rest IH]; simpl; intros H; [reflexivity|].
  apply andb_true_iff in H as [Hc Hrest].
  rewrite Hc. rewrite filter_cons_False by (simpl; congruence).
  now apply IH.
Qed.

Lemma append_times_replicate {A : Type} (n : nat) (l : list A) (x : A) :
  Py.append_times n l x = l ++ replicate n x.
Proof.
  revert l. induction n as [|k IH]; intros l; simpl.
  - now rewrite app_nil_r.
  - rewrite IH. unfold Py.append. now rewrite <- app_assoc.
Qed.

(** The input list as one concatenation. *)
Lemma build_input_app (mi : string -> input_item) (a : Namespace) :
  build_input mi a =
    map mi (field_tokens (urls a)) ++ map Str (field_tokens (ids a))
    ++ map LinkList (field_tokens (lists a))
    ++ map Channel (field_tokens (channels a))
    ++ map Tag (field_tokens (tags a))
    ++ map Search (field_tokens (searches a))
    ++ map Community (field_tokens (communities a))
    ++ map Story (field_tokens (stories a))
    ++ (if hot a then [HotSection] else [])
    ++ replicate (random_repeats (random a)) RandomCategory.
Proof.
  unfold build_input, Py.extend, Py.append, Py.for_range_append.
  assert (Hr : forall l : list input_item,
             match random a with
             | Some n => if Py.truthy_int (Some n)
                         then Py.append_times (Z.to_nat n) l RandomCategory
                         else l
             | None => l
             end = l ++ replicate (random_repeats (random a)) RandomCategory).
  { intros l. destruct (random a) as [n|]; simpl.
    - destruct (Z.eqb_spec n 0) as [->|Hn]; simpl.
      + now rewrite app_nil_r.
      + apply append_times_replicate.
    - now rewrite app_nil_r. }
  rewrite Hr. simpl.
  destruct (hot a); repeat rewrite <- app_assoc; reflexivity.
Qed.

Lemma elem_of_map {A B : Type} (f : A -> B) (l : list A) (y : B) :
  y ∈ map f l <-> exists x, x ∈ l /\ y = f x.
Proof.
  split.
  - intros H. apply list_elem_of_In, in_map_iff in H.
    destruct H as (x & Hx & Hin). exists x.
    split; [now apply list_elem_of_In | now symmetry].
  - intros (x & Hin & ->). apply list_elem_of_In, in_map_iff.
    exists x. split; [reflexivity | now apply list_elem_of_In].
Qed.

(** C2 (as amended): a field is cut at every comma and nothing else is
    removed from it (joining the pieces with commas gives the field back);
    the tokens kept are the non-empty pieces, in their order, so a token
    of blanks is kept; when every text field holds separators only and
    neither the hot flag nor a random count is given, the input list is
    empty. *)
Theorem field_split_keeps_nonempty (mi : string -> input_item) (a : Namespace) :
  (forall field : string,
      Py.join "," (Py.split "," field) = field
      /\ field_tokens field = filter (fun t => t <> "") (Py.split "," field)
      /\ (forall t, t ∈ field_tokens field
                    <-> t ∈ Py.split "," field /\ t <> ""))
  /\ (only_separators (urls a) = true -> only_separators (ids a) = true ->
      only_separators (lists a) = true -> only_separators (channels a) = true ->
      only_separators (tags a) = true -> only_separators (searches a) = true ->
      only_separators (communities a) = true ->
      only_separators (stories a) = true ->
      hot a = false -> random a = None ->
      build_input mi a = []).
Proof.
  split.
  - intros field. split; [apply join_split|]. split.
    + unfold field_tokens. apply list_filter_iff. intros t. apply truthy_true.
    + intros t. apply elem_of_field_tokens.
  - intros Hu Hi Hl Hc Ht Hs Hm Ho Hhot Hrand.
    rewrite build_input_app, Hhot, Hrand.
    rewrite !field_tokens_separators by assumption. reflexivity.
Qed.

Lemma field_split_keeps_nonempty_witness :
  build_input Str (set_channels ",,," blank_form) = []
  /\ field_tokens "a,,b, ,c" = ["a"; "b"; " "; "c"].
Proof.
  split.
  - apply (field_split_keeps_nonempty Str (set_channels ",,," blank_form));
      reflexivity.
  - destruct (field_split_keeps_nonempty Str blank_form) as [Hf _].
    destruct (Hf "a,,b, ,c") as (_ & -> & _). reflexivity.
Defined.

(** C2 fails as stated: the field [", ,"] holds separators and a blank,
    and it yields one descriptor, whose payload is the blank. *)
Lemma blank_token_is_kept :
  build_input Str (set_channels ", ," blank_form) = [Channel " "]
  /\ build_input Str (set_channels ", ," blank_form) <> [].
Proof. split; vm_compute; [reflexivity | discriminate]. Qed.

(** C3 (as amended): the elements of the input list are exactly the
    results of [mapped_input] on the URL tokens, the ID tokens as bare
    strings, the tokens of the other six fields inside the container of
    their field, [HotSection] when the flag is set and [RandomCategory]
    when a positive count is given; every token is a non-empty piece of
    its field. *)
Theorem input_elements (mi : string -> input_item) (a : Namespace)
    (x : input_item) :
  (x ∈ build_input mi a <->
     (exists t, t ∈ field_tokens (urls a) /\ x = mi t)
     \/ (exists t, t ∈ field_tokens (ids a) /\ x = Str t)
     \/ (exists t, t ∈ field_tokens (lists a) /\ x = LinkList t)
     \/ (exists t, t ∈ field_tokens (channels a) /\ x = Channel t)
     \/ (exists t, t ∈ field_tokens (tags a) /\ x = Tag t)
     \/ (exists t, t ∈ field_tokens (searches a) /\ x = Search t)
     \/ (exists t, t ∈ field_tokens (communities a) /\ x = Community t)
     \/ (exists t, t ∈ field_tokens (stories a) /\ x = Story t)
     \/ (hot a = true /\ x = HotSection)
     \/ (random_repeats (random a) <> O /\ x = RandomCategory))
  /\ (forall field t, t ∈ field_tokens field ->
        t <> "" /\ t ∈ Py.split "," field).
Proof.
  split.
  - rewrite build_input_app, !elem_of_app, !elem_of_map, elem_of_replicate.
    assert (Hhot : x ∈ (if hot a then [HotSection] else [])
                   <-> hot a = true /\ x = HotSection).
    { destruct (hot a).
      - rewrite list_elem_of_singleton. tauto.
      - rewrite elem_of_nil. split; [tauto | intros [? _]; discriminate]. }
    rewrite Hhot. tauto.
  - intros field t Ht. apply elem_of_field_tokens in Ht. tauto.
Qed.

Lemma input_elements_witness :
  Channel "a" ∈ build_input Str (set_channels "a,b" blank_form)
  /\ "b" <> "".
Proof.
  split.
  - apply (input_elements Str (set_channels "a,b" blank_form) (Channel "a")).
    do 3 right. left. exists "a". split; [|reflexivity].
    vm_compute. constructor.
  - destruct (input_elements Str blank_form HotSection) as [_ Htok].
    apply (Htok "a,b" "b"). vm_compute. constructor. constructor.
Defined.

(** C3 fails as stated: an ID token enters the input list as a bare
    string, not as an instance of a container class. *)
Lemma bare_id_in_input :
  build_input Channel (set_ids "abc" blank_form) = [Str "abc"]
  /\ ~ Forall (fun x => is_container x = true)
         (build_input Channel (set_ids "abc" blank_form)).
Proof.
  split; [vm_compute; reflexivity|].
  intros H. vm_compute in H. inversion H as [|? ? Hx _]. discriminate Hx.
Qed.

(** C4: the input list is the URL results, then the IDs, the link lists,
    the channels, the tags, the searches, the communities and the stories,
    each in the order of the tokens in its field, then [HotSection] if the
    flag is set, then as many [RandomCategory] entries as the repeat count
    says (none when it is unset or zero). *)
Theorem input_order (mi : string -> input_item) (a : Namespace) :
  build_input mi a =
    map mi (field_tokens (urls a)) ++ map Str (field_tokens (ids a))
    ++ map LinkList (field_tokens (lists a))
    ++ map Channel (field_tokens (channels a))
    ++ map Tag (field_tokens (tags a))
    ++ map Search (field_tokens (searches a))
    ++ map Community (field_tokens (communities a))
    ++ map Story (field_tokens (stories a))
    ++ (if hot a then [HotSection] else [])
    ++ replicate (random_repeats (random a)) RandomCategory
  /\ random_repeats None = O
  /\ random_repeats (Some 0) = O
  /\ (forall N : nat, random_repeats (Some (Z.of_nat N)) = N)
  /\ (forall field : string,
        field_tokens field = filter (fun t => t <> "") (Py.split "," field)
        /\ Py.join "," (Py.split "," field) = field).
Proof.
  split; [apply build_input_app|].
  split; [reflexivity|]. split; [reflexivity|]. split.
  - intros N. simpl. apply Nat2Z.id.
  - intros field. split; [|apply join_split].
    unfold field_tokens. apply list_filter_iff. intros t. apply truthy_true.
Qed.

(** ** Reading the archive *)

Lemma app_cons (c : ascii) (s t : string) :
  String c s +:+ t = String c (s +:+ t).
Proof. reflexivity. Qed.

Lemma app_empty_r (s : string) : s +:+ "" = s.
Proof. induction s as [|c s IH]; [reflexivity|]. now rewrite app_cons, IH. Qed.

Lemma app_assoc_str (s t u : string) : (s +:+ t) +:+ u = s +:+ (t +:+ u).
Proof. induction s as [|c s IH]; [reflexivity|]. now rewrite !app_cons, IH. Qed.

Lemma all_space_app (s t : string) :
  all_space s = true -> all_space t = true -> all_space (s +:+ t) = true.
Proof.
  induction s as [|c s IH]; intros Hs Ht; [exact Ht|].
  rewrite app_cons. simpl in *. apply andb_true_iff in Hs as [Hc Hs].
  rewrite Hc. simpl. now apply IH.
Qed.

Lemma lstrip_decomp (s : string) :
  exists ws, all_space ws = true /\ s = ws +:+ Py.lstrip s.
Proof.
  induction s as [|c s (ws & Hws & Heq)]; [now exists ""|].
  simpl. destruct (Py.isspace c) eqn:Hc.
  - exists (String c ws). simpl. rewrite Hc, Hws, app_cons.
    split; [reflexivity | now f_equal].
  - now exists "".
Qed.

Lemma lstrip_first (s : string) : not_space (first_char (Py.lstrip s)).
Proof.
  induction s as [|c s IH]; simpl; [exact I|].
  destruct (Py.isspace c) eqn:Hc; [exact IH | exact Hc].
Qed.

Lemma rstrip_decomp (s : string) :
  exists ws, all_space ws = true /\ s = Py.rstrip s +:+ ws.
Proof.
  induction s as [|c s (ws & Hws & Heq)]; [now exists ""|].
  simpl. destruct (Py.rstrip s) as [|c' r] eqn:Hr.
  - destruct (Py.isspace c) eqn:Hc.
    + exists (String c ws). simpl. rewrite Hc, Hws.
      split; [reflexivity|]. change ("" +:+ String c ws) with (String c ws).
      now f_equal.
    + exists ws. split; [exact Hws|]. rewrite app_cons. now f_equal.
  - exists ws. split; [exact Hws|]. rewrite app_cons. now f_equal.
Qed.

Lemma rstrip_last (s : string) : not_space (last_char (Py.rstrip s)).
Proof.
  induction s as [|c s IH]; simpl; [exact I|].
  destruct (Py.rstrip s) as [|c' r] eqn:Hr.
  - destruct (Py.isspace c) eqn:Hc; simpl; [exact I | exact Hc].
  - exact IH.
Qed.

Lemma rstrip_first (s : string) :
  not_space (first_char s) -> not_space (first_char (Py.rstrip s)).
Proof.
  destruct s as [|c s]; simpl; [trivial|]. intros Hc.
  destruct (Py.rstrip s); [rewrite Hc|]; exact Hc.
Qed.

(** [strip] removes a run of whitespace at either end and nothing else. *)
Lemma strip_decomp (s : string) :
  exists l r, all_space l = true /\ all_space r = true
              /\ s = l +:+ Py.strip s +:+ r
              /\ not_space (first_char (Py.strip s))
              /\ not_space (last_char (Py.strip s)).
Proof.
  destruct (lstrip_decomp s) as (l & Hl & Hs).
  destruct (rstrip_decomp (Py.lstrip s)) as (r & Hr & Hs').
  exists l, r. unfold Py.strip. repeat split; try assumption.
  - now rewrite <- Hs', <- Hs.
  - apply rstrip_first, lstrip_first.
  - apply rstrip_last.
Qed.

(** The lines of a text, put end to end, are the text. *)
Lemma concat_file_lines (text : string) :
  String.concat "" (file_lines text) = text.
Proof.
  induction text as [|c text IH]; [reflexivity|]. simpl.
  destruct (Ascii.eqb c "010").
  - destruct (file_lines text) as [|l ls] eqn:Hl.
    + simpl in *. now rewrite <- IH.
    + change (String.concat "" (String c "" :: l :: ls))
        with (String c "" +:+ "" +:+ String.concat "" (l :: ls)).
      rewrite IH. reflexivity.
  - destruct (file_lines text) as [|l ls] eqn:Hl.
    + simpl in *. now rewrite <- IH.
    + destruct ls as [|l' ls'].
      * simpl in *. now rewrite IH.
      * change (String.concat "" (String c l :: l' :: ls'))
          with (String c (l +:+ "" +:+ String.concat "" (l' :: ls'))).
        f_equal. exact IH.
Qed.

(** A line holds no line feed except, possibly, as its last character. *)
Lemma file_lines_shape (text l : string) :
  l ∈ file_lines text ->
  exists body, has_lf body = false /\ (l = body +:+ LF \/ l = body).
Proof.
  revert l. induction text as [|c text IH]; intros l Hin; simpl in Hin.
  - now apply elem_of_nil in Hin.
  - destruct (Ascii.eqb c "010") eqn:Hc.
    + apply elem_of_cons in Hin as [->|Hin]; [|now apply IH].
      exists "". split; [reflexivity|]. left.
      apply Ascii.eqb_eq in Hc. now subst c.
    + destruct (file_lines text) as [|l0 ls] eqn:Hl.
      * apply list_elem_of_singleton in Hin as ->.
        exists (String c ""). simpl. rewrite Hc. auto.
      * apply elem_of_cons in Hin as [->|Hin].
        -- destruct (IH l0) as (body & Hb & Hshape); [left|].
           exists (String c body). simpl. rewrite Hc, Hb.
           split; [reflexivity|].
           destruct Hshape as [->| ->]; [left | right]; reflexivity.
        -- apply IH. now right.
Qed.

Lemma elem_of_stripped_lines (content x : string) :
  x ∈ stripped_lines content
  <-> exists l, l ∈ file_lines (universal_newlines content) /\ x = Py.strip l.
Proof. unfold stripped_lines. rewrite elem_of_list_to_set. apply elem_of_map. Qed.

Lemma example_archive_content :
  stripped_lines example_archive = {["id1"; "id2"]}.
Proof.
  unfold stripped_lines.
  replace (map Py.strip (file_lines (universal_newlines example_archive)))
    with ["id1"; "id2"; "id1"] by (vm_compute; reflexivity).
  set_solver.
Qed.

(** C5: with a path that is set and names an existing file, the archive
    content is the set of the file's lines, each stripped of the
    whitespace around it, so repeated identifiers count once (the file
    "id1\nid2\nid1\n" gives the two-element set of "id1" and "id2"); with
    no path, or with a path that does not exist, it is the empty set and
    nothing is raised; the file system is left as it was. *)
Theorem archive_loading (fs : gmap string node) (archive : option string) :
  (forall p content,
      archive = Some p -> p <> "" -> fs !! p = Some (File content) ->
      load_archive fs archive = (fs, Done (stripped_lines content)))
  /\ (forall content x,
        x ∈ stripped_lines content
        <-> exists l, l ∈ file_lines (universal_newlines content)
                      /\ x = Py.strip l)
  /\ (forall text,
        String.concat "" (file_lines text) = text
        /\ forall l, l ∈ file_lines text ->
             exists body, has_lf body = false /\ (l = body +:+ LF \/ l = body))
  /\ (forall s, exists l r,
        all_space l = true /\ all_space r = true
        /\ s = l +:+ Py.strip s +:+ r
        /\ not_space (first_char (Py.strip s))
        /\ not_space (last_char (Py.strip s)))
  /\ (archive = None \/ archive = Some ""
      \/ (exists p, archive = Some p /\ fs !! p = None) ->
      load_archive fs archive = (fs, Done ∅))
  /\ (load_archive fs archive).1 = fs
  /\ stripped_lines example_archive = {["id1"; "id2"]}
  /\ size (stripped_lines example_archive) = 2%nat.
Proof.
  split.
  { intros p content -> Hp Hfile. unfold load_archive, exists_path, open_read.
    rewrite Hfile. apply truthy_true in Hp. now rewrite Hp. }
  split; [intros; apply elem_of_stripped_lines|].
  split.
  { intros text. split; [apply concat_file_lines|].
    intros l. apply file_lines_shape. }
  split; [apply strip_decomp|].
  split.
  { intros [->|[->|(p & -> & Hnone)]]; try reflexivity.
    unfold load_archive, exists_path. rewrite Hnone.
    now rewrite andb_false_r. }
  split.
  { unfold load_archive, open_read, exists_path.
    destruct archive as [p|]; [|reflexivity].
    destruct (fs !! p) as [[content|]|]; destruct (Py.truthy p); reflexivity. }
  split; [apply example_archive_content|].
  rewrite example_archive_content.
  rewrite size_union by set_solver. now rewrite !size_singleton.
Qed.

Lemma archive_loading_witness :
  load_archive {["/home/user/archive.txt" := File example_archive]}
               (Some "/home/user/archive.txt")
  = ({["/home/user/archive.txt" := File example_archive]},
     Done (stripped_lines example_archive))
  /\ load_archive ∅ (Some "/home/user/archive.txt") = (∅, Done ∅).
Proof.
  split.
  - destruct (archive_loading
                {["/home/user/archive.txt" := File example_archive]}
                (Some "/home/user/archive.txt")) as [Hread _].
    apply (Hread "/home/user/archive.txt" example_archive).
    + reflexivity.
    + discriminate.
    + apply lookup_singleton_eq.
  - destruct (archive_loading ∅ (Some "/home/user/archive.txt"))
      as (_ & _ & _ & _ & Hmissing & _).
    apply Hmissing. right. right. exists "/home/user/archive.txt".
    split; [reflexivity | apply lookup_empty].
Defined.

(** ** Keyword normalization *)

Ltac unfold_rules :=
  unfold normalize, normalize_name_template, normalize_tag_sep,
    normalize_fallback_char, fallback_unset_rule, fallback_space_rule,
    set_name_template, set_tag_sep, set_fallback_char in *.

(** Case analysis on every test a rule makes. *)
Ltac rule_cases :=
  unfold_rules; simpl in *;
  repeat match goal with
         | |- context [String.eqb ?s ?t] =>
             destruct (String.eqb_spec s t); simpl in *
         | |- context [match ?o with Some _ => _ | None => _ end] =>
             is_var o; destruct o; simpl in *
         end;
  try congruence.

Lemma normalize_name_template_field (a : Namespace) :
  name_template (normalize a) = name_template (normalize_name_template a).
Proof. destruct a. rule_cases. Qed.

Lemma normalize_tag_sep_field (a : Namespace) :
  tag_sep (normalize a) = tag_sep (normalize_tag_sep a).
Proof. destruct a. rule_cases. Qed.

Lemma normalize_fallback_char_field (a : Namespace) :
  fallback_char (normalize a) = fallback_char (normalize_fallback_char a).
Proof. destruct a. rule_cases. Qed.

(** C6: a naming template that is a string becomes [None] exactly when it
    is the default token "%id%"; every other value of the option is left
    as it is. *)
Theorem name_template_normalization (a : Namespace) :
  (forall s, name_template a = Some s ->
             (name_template (normalize a) = None <-> s = "%id%"))
  /\ (name_template a = Some "%id%" -> name_template (normalize a) = None)
  /\ (name_template a <> Some "%id%" ->
      name_template (normalize a) = name_template a).
Proof.
  rewrite normalize_name_template_field.
  destruct a as [? ? ? ? ? ? ? ? ? ? ? nt ? ? ? ? ? ? ?]. simpl.
  split; [|split].
  - intros s ->. rule_cases; split; congruence.
  - intros ->. reflexivity.
  - intros Hne. rule_cases.
Qed.

Lemma name_template_normalization_witness :
  name_template (normalize blank_form) = None
  /\ name_template (normalize (set_name_template (Some "%title%") blank_form))
     = Some "%title%".
Proof.
  split.
  - apply (name_template_normalization blank_form). reflexivity.
  - apply (name_template_normalization
             (set_name_template (Some "%title%") blank_form)).
    discriminate.
Defined.

(** C7: the tag separator "space" becomes a blank and any other value of
    it stays; an unset fallback character becomes the empty string, the
    fallback character "space" becomes a blank, and any other value of it
    stays. *)
Theorem blank_keyword_normalization (a : Namespace) :
  (tag_sep a = Some "space" -> tag_sep (normalize a) = Some " ")
  /\ (tag_sep a <> Some "space" -> tag_sep (normalize a) = tag_sep a)
  /\ (fallback_char a = None -> fallback_char (normalize a) = Some "")
  /\ (fallback_char a = Some "space" -> fallback_char (normalize a) = Some " ")
  /\ (fallback_char a <> None -> fallback_char a <> Some "space" ->
      fallback_char (normalize a) = fallback_char a).
Proof.
  rewrite normalize_tag_sep_field, normalize_fallback_char_field.
  destruct a as [? ? ? ? ? ? ? ? ? ? ? ? ts fc ? ? ? ? ?]. simpl.
  repeat split.
  - intros ->. reflexivity.
  - intros Hne. rule_cases.
  - intros ->. reflexivity.
  - intros ->. reflexivity.
  - intros Hnone Hne. rule_cases.
Qed.

Lemma blank_keyword_normalization_witness :
  tag_sep (normalize (set_tag_sep (Some "space") blank_form)) = Some " "
  /\ tag_sep (normalize blank_form) = Some "_"
  /\ fallback_char (normalize blank_form) = Some ""
  /\ fallback_char (normalize (set_fallback_char (Some "space") blank_form))
     = Some " "
  /\ fallback_char (normalize (set_fallback_char (Some "-") blank_form))
     = Some "-".
Proof.
  split; [|split; [|split; [|split]]].
  - apply (blank_keyword_normalization
             (set_tag_sep (Some "space") blank_form)). reflexivity.
  - apply (blank_keyword_normalization blank_form). discriminate.
  - apply (blank_keyword_normalization blank_form). reflexivity.
  - apply (blank_keyword_normalization
             (set_fallback_char (Some "space") blank_form)). reflexivity.
  - apply (blank_keyword_normalization
             (set_fallback_char (Some "-") blank_form)); discriminate.
Defined.

(** Functions that commute pairwise can be applied in any order. *)
Lemma apply_in_any_order {A : Type} (l l' : list (A -> A)) :
  Permutation l l' ->
  (forall f g, f ∈ l -> g ∈ l -> forall a, f (g a) = g (f a)) ->
  forall a, fold_left (fun acc r => r acc) l a
            = fold_left (fun acc r => r acc) l' a.
Proof.
  induction 1 as [|x l l' Hperm IH|x y l|l l' l'' Hp1 IH1 Hp2 IH2];
    intros Hcomm a; simpl.
  - reflexivity.
  - apply IH. intros f g Hf Hg. apply Hcomm; now right.
  - f_equal. apply Hcomm; [right; left | left].
  - rewrite IH1 by assumption. apply IH2.
    intros f g Hf Hg. apply Hcomm; now rewrite Hp1.
Qed.

Lemma elem_of_rules (r : Namespace -> Namespace) :
  r ∈ rules ->
  r = normalize_name_template \/ r = normalize_tag_sep
  \/ r = fallback_unset_rule \/ r = fallback_space_rule.
Proof.
  unfold rules. rewrite !elem_of_cons, elem_of_nil. tauto.
Qed.

Lemma rules_commute (f g : Namespace -> Namespace) :
  f ∈ rules -> g ∈ rules -> forall a, f (g a) = g (f a).
Proof.
  intros Hf Hg a.
  apply elem_of_rules in Hf as [->|[->|[->| ->]]];
    apply elem_of_rules in Hg as [->|[->|[->| ->]]];
    destruct a; rule_cases.
Qed.

(** The statements of the source do what the four rules do. *)
Lemma apply_rules_normalize (a : Namespace) :
  apply_rules rules a = normalize a.
Proof. unfold apply_rules, rules. destruct a. rule_cases. Qed.

Lemma rule_idempotent (r : Namespace -> Namespace) (a : Namespace) :
  r ∈ rules -> r (r a) = r a.
Proof.
  intros Hr. apply elem_of_rules in Hr as [->|[->|[->| ->]]];
    destruct a; rule_cases.
Qed.

Lemma rule_after_normalize (r : Namespace -> Namespace) (a : Namespace) :
  r ∈ rules -> r (normalize a) = normalize a.
Proof.
  intros Hr. apply elem_of_rules in Hr as [->|[->|[->| ->]]];
    destruct a; rule_cases.
Qed.

(** C8: applying the four rewrites in any order gives what the source's
    order gives; normalizing twice is normalizing once; every rule is
    idempotent, any two rules commute, and no rule changes a normalized
    namespace. *)
Theorem normalization_order_independent
    (rs : list (Namespace -> Namespace)) (a : Namespace) :
  Permutation rs rules ->
  apply_rules rs a = normalize a
  /\ normalize (normalize a) = normalize a
  /\ Forall (fun r => r (normalize a) = normalize a) rules
  /\ Forall (fun r => forall b, r (r b) = r b) rules
  /\ Forall (fun f => Forall (fun g => forall b, f (g b) = g (f b)) rules)
            rules.
Proof.
  intros Hperm. split; [|split; [|split; [|split]]].
  - rewrite <- apply_rules_normalize. unfold apply_rules.
    symmetry. apply apply_in_any_order; [now symmetry|].
    apply rules_commute.
  - destruct a. rule_cases.
  - apply Forall_forall. intros r Hr. now apply rule_after_normalize.
  - apply Forall_forall. intros r Hr b. now apply rule_idempotent.
  - apply Forall_forall. intros f Hf. apply Forall_forall. intros g Hg b.
    now apply rules_commute.
Qed.

Lemma normalization_order_independent_witness :
  apply_rules [fallback_space_rule; fallback_unset_rule;
               normalize_tag_sep; normalize_name_template]
              (set_tag_sep (Some "space") blank_form)
  = normalize (set_tag_sep (Some "space") blank_form).
Proof.
  apply (normalization_order_independent
           [fallback_space_rule; fallback_unset_rule;
            normalize_tag_sep; normalize_name_template]
           (set_tag_sep (Some "space") blank_form)).
  symmetry. apply (Permutation_rev rules).
Defined.

(** ** Default correction *)

Lemma join_home_abs (home : string) :
  OsPath.isabs home = true -> OsPath.isabs (OsPath.join home "coubs") = true.
Proof.
  destruct home as [|c home]; [discriminate|]. intros Hc.
  unfold OsPath.join. change (OsPath.isabs "coubs") with false. cbv iota.
  destruct (negb (Py.truthy (String c home))
            || OsPath.endswith_sep (String c home));
    rewrite app_cons; exact Hc.
Qed.

Lemma join_home_shape (home : string) :
  exists sep, OsPath.join home "coubs" = home +:+ sep +:+ "coubs"
              /\ (sep = "/" \/ sep = "").
Proof.
  unfold OsPath.join. change (OsPath.isabs "coubs") with false. cbv iota.
  destruct (negb (Py.truthy home) || OsPath.endswith_sep home).
  - exists "". split; [reflexivity | now right].
  - exists "/". split; [reflexivity | now left].
Qed.

Lemma prompt_not_in_yes_no_false (p : option string) :
  prompt_not_in_yes_no p = false <-> p = Some "yes" \/ p = Some "no".
Proof.
  destruct p as [s|]; simpl.
  - destruct (String.eqb_spec s "yes") as [->|Hy]; simpl; [tauto|].
    destruct (String.eqb_spec s "no") as [->|Hn]; simpl; [tauto|].
    split; [discriminate | intros [H|H]; congruence].
  - split; [discriminate | intros [H|H]; discriminate].
Qed.

Lemma correct_defaults_PROMPT (home : string) (d : defaults) :
  PROMPT (correct_defaults home d)
  = if prompt_not_in_yes_no (PROMPT d) then Some "no" else PROMPT d.
Proof.
  destruct d as [prompt path rc vq aq ac sh vo ao err].
  unfold correct_defaults. simpl.
  destruct (prompt_not_in_yes_no prompt); simpl;
    destruct (OsPath.isabs path); reflexivity.
Qed.

Lemma correct_defaults_PATH (home : string) (d : defaults) :
  PATH (correct_defaults home d)
  = if OsPath.isabs (PATH d) then PATH d else OsPath.join home "coubs".
Proof.
  destruct d as [prompt path rc vq aq ac sh vo ao err].
  unfold correct_defaults. simpl.
  destruct (prompt_not_in_yes_no prompt); simpl;
    destruct (OsPath.isabs path); reflexivity.
Qed.


(** C9: a prompt default other than "yes" and "no" becomes "no", one of
    the two stays; an output path that is not absolute becomes the
    directory "coubs" joined to the home directory, which is absolute
    when the home directory is, and an absolute output path stays; no
    other default is touched. *)
Theorem default_correction (home : string) (d : defaults) :
  (PROMPT d <> Some "yes" -> PROMPT d <> Some "no" ->
   PROMPT (correct_defaults home d) = Some "no")
  /\ (PROMPT d = Some "yes" \/ PROMPT d = Some "no" ->
      PROMPT (correct_defaults home d) = PROMPT d)
  /\ (OsPath.isabs (PATH d) = false ->
      PATH (correct_defaults home d) = OsPath.join home "coubs"
      /\ exists sep, PATH (correct_defaults home d) = home +:+ sep +:+ "coubs"
                     /\ (sep = "/" \/ sep = ""))
  /\ (OsPath.isabs (PATH d) = false -> OsPath.isabs home = true ->
      OsPath.isabs (PATH (correct_defaults home d)) = true)
  /\ (OsPath.isabs (PATH d) = true -> PATH (correct_defaults home d) = PATH d)
  /\ (RECOUBS (correct_defaults home d) = RECOUBS d
      /\ V_QUALITY (correct_defaults home d) = V_QUALITY d
      /\ A_QUALITY (correct_defaults home d) = A_QUALITY d
      /\ AAC (correct_defaults home d) = AAC d
      /\ SHARE (correct_defaults home d) = SHARE d
      /\ V_ONLY (correct_defaults home d) = V_ONLY d
      /\ A_ONLY (correct_defaults home d) = A_ONLY d
      /\ error (correct_defaults home d) = error d).
Proof.
  rewrite correct_defaults_PROMPT, correct_defaults_PATH.
  split; [|split; [|split; [|split; [|split]]]].
  - intros Hy Hn. destruct (prompt_not_in_yes_no (PROMPT d)) eqn:Hp;
      [reflexivity|].
    apply prompt_not_in_yes_no_false in Hp as [H|H]; congruence.
  - intros Hyn. apply prompt_not_in_yes_no_false in Hyn. now rewrite Hyn.
  - intros ->. split; [reflexivity | apply join_home_shape].
  - intros -> Hhome. now apply join_home_abs.
  - intros ->. reflexivity.
  - destruct d as [prompt path rc vq aq ac sh vo ao err].
    unfold correct_defaults. simpl.
    destruct (prompt_not_in_yes_no prompt); simpl;
      destruct (OsPath.isabs path); repeat split; reflexivity.
Qed.

Lemma default_correction_witness :
  PROMPT (correct_defaults "/home/user"
            (mkDefaults None "./out" 1 (-1) (-1) 1 false false false false))
  = Some "no"
  /\ PATH (correct_defaults "/home/user"
             (mkDefaults None "./out" 1 (-1) (-1) 1 false false false false))
     = "/home/user/coubs"
  /\ OsPath.isabs
       (PATH (correct_defaults "/home/user"
                (mkDefaults None "./out" 1 (-1) (-1) 1 false false false false)))
     = true
  /\ PATH (correct_defaults "/home/user"
             (mkDefaults (Some "yes") "/data/coubs" 1 (-1) (-1) 1
                         false false false false))
     = "/data/coubs".
Proof.
  destruct (default_correction "/home/user"
              (mkDefaults None "./out" 1 (-1) (-1) 1 false false false false))
    as (Hprompt & _ & Hpath & Habs & _).
  destruct (default_correction "/home/user"
              (mkDefaults (Some "yes") "/data/coubs" 1 (-1) (-1) 1
                          false false false false))
    as (_ & _ & _ & _ & Hkeep & _).
  split; [apply Hprompt; discriminate|].
  split; [apply Hpath; reflexivity|].
  split; [apply Habs; reflexivity|].
  apply Hkeep. reflexivity.
Defined.

(** ** The deferred option error *)




Lemma build_form_defined (defs : defaults) (w : world) :
  is_Some (menu_defaults defs) -> build_form defs w = emit EvForm w.
Proof.
  unfold menu_defaults, build_form. intros [m Hm].
  destruct (default_recoubs defs); [|discriminate].
  destruct (default_v_quality defs); [|discriminate].
  destruct (default_a_quality defs); [|discriminate].
  destruct (default_aac defs); [|discriminate].
  destruct (default_special defs); [reflexivity | discriminate].
Qed.





(** ** End to end *)

(** The recoub policy "Only Recoubs" and the special format "Audio only"
    translate to the code 2 and to the triple (false, false, true). *)
Example translate_only_recoubs_audio_only :
  translate_to_cli
    (mkNamespace "" "" "" "" "" "" "" "" false None None (Some "%id%")
       (Some "_") None "Best quality" "Worst quality" "No Bias"
       "Only Recoubs" "Audio only")
  = Some (mkCodes (-1) 0 1 2 false false true).
Proof. vm_compute. reflexivity. Qed.


(** * Further properties *)

(** ** The tables of [translate_to_cli], entry by entry *)

Ltac table_entries :=
  split;
  [ intros H;
    repeat (apply lookup_insert_Some in H as [[<- <-]|[_ H]]; [tauto|]);
    rewrite lookup_empty in H; discriminate
  | intros H; repeat (destruct H as [H|H]);
    destruct H as [-> ->]; vm_compute; reflexivity ].

Lemma quality_entries (l : string) (c : Z) :
  TranslateToCli.QUALITY_LABEL !! l = Some c
  <-> (l = "Worst quality" /\ c = 0) \/ (l = "Best quality" /\ c = -1).
Proof. unfold TranslateToCli.QUALITY_LABEL. table_entries. Qed.

Lemma aac_entries (l : string) (c : Z) :
  TranslateToCli.AAC_LABEL !! l = Some c
  <-> (l = "Only MP3" /\ c = 0) \/ (l = "No Bias" /\ c = 1)
      \/ (l = "Prefer AAC" /\ c = 2) \/ (l = "Only AAC" /\ c = 3).
Proof. unfold TranslateToCli.AAC_LABEL. table_entries. Qed.

Lemma recoub_entries (l : string) (c : Z) :
  TranslateToCli.RECOUB_LABEL !! l = Some c
  <-> (l = "No Recoubs" /\ c = 0) \/ (l = "With Recoubs" /\ c = 1)
      \/ (l = "Only Recoubs" /\ c = 2).
Proof. unfold TranslateToCli.RECOUB_LABEL. table_entries. Qed.

Lemma special_entries (l : string) (t : bool * bool * bool) :
  TranslateToCli.SPECIAL_LABEL !! l = Some t
  <-> (l = "None" /\ t = (false, false, false))
      \/ (l = "Share" /\ t = (true, false, false))
      \/ (l = "Video only" /\ t = (false, true, false))
      \/ (l = "Audio only" /\ t = (false, false, true)).
Proof. unfold TranslateToCli.SPECIAL_LABEL. table_entries. Qed.

Lemma quality_defined (l : string) :
  is_Some (TranslateToCli.QUALITY_LABEL !! l) <-> l ∈ Choices.quality.
Proof.
  unfold Choices.quality. rewrite !elem_of_cons, elem_of_nil. split.
  - intros [c Hc]. apply quality_entries in Hc. tauto.
  - intros [->|[->|[]]]; eexists; vm_compute; reflexivity.
Qed.

Lemma aac_defined (l : string) :
  is_Some (TranslateToCli.AAC_LABEL !! l) <-> l ∈ Choices.aac.
Proof.
  unfold Choices.aac. rewrite !elem_of_cons, elem_of_nil. split.
  - intros [c Hc]. apply aac_entries in Hc. tauto.
  - intros [->|[->|[->|[->|[]]]]]; eexists; vm_compute; reflexivity.
Qed.

Lemma recoub_defined (l : string) :
  is_Some (TranslateToCli.RECOUB_LABEL !! l) <-> l ∈ Choices.recoubs.
Proof.
  unfold Choices.recoubs. rewrite !elem_of_cons, elem_of_nil. split.
  - intros [c Hc]. apply recoub_entries in Hc. tauto.
  - intros [->|[->|[->|[]]]]; eexists; vm_compute; reflexivity.
Qed.

Lemma special_defined (l : string) :
  is_Some (TranslateToCli.SPECIAL_LABEL !! l) <-> l ∈ Choices.special.
Proof.
  unfold Choices.special. rewrite !elem_of_cons, elem_of_nil. split.
  - intros [c Hc]. apply special_entries in Hc. tauto.
  - intros [->|[->|[->|[->|[]]]]]; eexists; vm_compute; reflexivity.
Qed.

(** [translate_to_cli] returns exactly when its five lookups do, with
    their values. *)
Lemma translate_Some (a : Namespace) (c : codes) :
  translate_to_cli a = Some c
  <-> TranslateToCli.QUALITY_LABEL !! v_quality a = Some (c_v_quality c)
      /\ TranslateToCli.QUALITY_LABEL !! a_quality a = Some (c_a_quality c)
      /\ TranslateToCli.AAC_LABEL !! aac a = Some (c_aac c)
      /\ TranslateToCli.RECOUB_LABEL !! recoubs a = Some (c_recoubs c)
      /\ TranslateToCli.SPECIAL_LABEL !! special a
         = Some (c_share c, c_v_only c, c_a_only c).
Proof.
  unfold translate_to_cli.
  destruct (TranslateToCli.QUALITY_LABEL !! v_quality a) as [vq|]; simpl;
    [|split; [discriminate | intros (H & _); discriminate]].
  destruct (TranslateToCli.QUALITY_LABEL !! a_quality a) as [aq|]; simpl;
    [|split; [discriminate | intros (_ & H & _); discriminate]].
  destruct (TranslateToCli.AAC_LABEL !! aac a) as [ac|]; simpl;
    [|split; [discriminate | intros (_ & _ & H & _); discriminate]].
  destruct (TranslateToCli.RECOUB_LABEL !! recoubs a) as [rc|]; simpl;
    [|split; [discriminate | intros (_ & _ & _ & H & _); discriminate]].
  destruct (TranslateToCli.SPECIAL_LABEL !! special a) as [[[sh vo] ao]|];
    simpl; [|split; [discriminate | intros (_ & _ & _ & _ & H); discriminate]].
  destruct c as [vq' aq' ac' rc' sh' vo' ao']. simpl.
  split.
  - intros H. injection H as -> -> -> -> -> -> ->. repeat split.
  - intros (H1 & H2 & H3 & H4 & H5).
    injection H1 as ->. injection H2 as ->. injection H3 as ->.
    injection H4 as ->. injection H5 as -> -> ->. reflexivity.
Qed.

(** X1: [translate_to_cli] returns codes exactly when each of the five
    label fields holds one of the choices of its menu; with any other
    label it raises [KeyError]. *)
Theorem translate_defined_iff (a : Namespace) :
  is_Some (translate_to_cli a)
  <-> v_quality a ∈ Choices.quality /\ a_quality a ∈ Choices.quality
      /\ aac a ∈ Choices.aac /\ recoubs a ∈ Choices.recoubs
      /\ special a ∈ Choices.special.
Proof.
  rewrite <- !quality_defined, <- aac_defined, <- recoub_defined,
    <- special_defined.
  split.
  - intros [c Hc]. apply translate_Some in Hc as (H1 & H2 & H3 & H4 & H5).
    rewrite H1, H2, H3, H4, H5. repeat split; eauto.
  - intros ([vq H1] & [aq H2] & [ac H3] & [rc H4] & [[[sh vo] ao] H5]).
    exists (mkCodes vq aq ac rc sh vo ao). now apply translate_Some.
Qed.

(** X2: the codes [translate_to_cli] returns lie in the ranges of the
    tables: each quality is 0 or -1, the AAC bias is between 0 and 3, the
    recoub policy between 0 and 2, and at most one of the flags share,
    video-only and audio-only is set. *)
Theorem translate_codes_range (a : Namespace) (c : codes) :
  translate_to_cli a = Some c ->
  (c_v_quality c = 0 \/ c_v_quality c = -1)
  /\ (c_a_quality c = 0 \/ c_a_quality c = -1)
  /\ 0 <= c_aac c <= 3
  /\ 0 <= c_recoubs c <= 2
  /\ at_most_one (c_share c) (c_v_only c) (c_a_only c) = true.
Proof.
  intros Hc. apply translate_Some in Hc as (H1 & H2 & H3 & H4 & H5).
  apply quality_entries in H1. apply quality_entries in H2.
  apply aac_entries in H3. apply recoub_entries in H4.
  apply special_entries in H5.
  split; [tauto|]. split; [tauto|]. split; [lia|]. split; [lia|].
  destruct H5 as [[_ H]|[[_ H]|[[_ H]|[_ H]]]];
    injection H as -> -> ->; reflexivity.
Qed.

Lemma translate_codes_range_witness :
  0 <= c_aac (mkCodes (-1) 0 1 2 false false true) <= 3
  /\ at_most_one false false true = true.
Proof.
  destruct (translate_codes_range
              (mkNamespace "" "" "" "" "" "" "" "" false None None
                 (Some "%id%") (Some "_") None "Best quality" "Worst quality"
                 "No Bias" "Only Recoubs" "Audio only")
              (mkCodes (-1) 0 1 2 false false true))
    as (_ & _ & Haac & _ & Hflags).
  - vm_compute. reflexivity.
  - split; [exact Haac | exact Hflags].
Defined.

(** X3: the codes determine the labels: looking the returned codes up in
    the tables of [GuiDefaultOptions] gives the five submitted labels
    back, so two namespaces with the same codes have the same labels. *)
Theorem translate_decodes (a : Namespace) (c : codes) :
  translate_to_cli a = Some c ->
  Py.getitem GuiDefaultOptions.QUALITY_LABEL (c_v_quality c)
  = Some (v_quality a)
  /\ Py.getitem GuiDefaultOptions.QUALITY_LABEL (c_a_quality c)
     = Some (a_quality a)
  /\ Py.getitem GuiDefaultOptions.AAC_LABEL (c_aac c) = Some (aac a)
  /\ Py.getitem GuiDefaultOptions.RECOUB_LABEL (c_recoubs c)
     = Some (recoubs a)
  /\ GuiDefaultOptions.SPECIAL_LABEL !! (c_share c, c_v_only c, c_a_only c)
     = Some (special a)
  /\ (forall b, translate_to_cli b = Some c ->
        v_quality b = v_quality a /\ a_quality b = a_quality a
        /\ aac b = aac a /\ recoubs b = recoubs a /\ special b = special a).
Proof.
  assert (Hdec : forall a,
    translate_to_cli a = Some c ->
    Py.getitem GuiDefaultOptions.QUALITY_LABEL (c_v_quality c)
    = Some (v_quality a)
    /\ Py.getitem GuiDefaultOptions.QUALITY_LABEL (c_a_quality c)
       = Some (a_quality a)
    /\ Py.getitem GuiDefaultOptions.AAC_LABEL (c_aac c) = Some (aac a)
    /\ Py.getitem GuiDefaultOptions.RECOUB_LABEL (c_recoubs c)
       = Some (recoubs a)
    /\ GuiDefaultOptions.SPECIAL_LABEL !! (c_share c, c_v_only c, c_a_only c)
       = Some (special a)).
  { clear a. intros a Hc.
    apply translate_Some in Hc as (H1 & H2 & H3 & H4 & H5).
    apply quality_entries in H1. apply quality_entries in H2.
    apply aac_entries in H3. apply recoub_entries in H4.
    apply special_entries in H5.
    repeat split.
    - destruct H1 as [[-> ->]|[-> ->]]; reflexivity.
    - destruct H2 as [[-> ->]|[-> ->]]; reflexivity.
    - destruct H3 as [[-> ->]|[[-> ->]|[[-> ->]|[-> ->]]]]; reflexivity.
    - destruct H4 as [[-> ->]|[[-> ->]|[-> ->]]]; reflexivity.
    - destruct H5 as [[-> H]|[[-> H]|[[-> H]|[-> H]]]]; rewrite H;
        reflexivity. }
  intros Ha. destruct (Hdec a Ha) as (H1 & H2 & H3 & H4 & H5).
  repeat split; try assumption;
    destruct (Hdec b H) as (G1 & G2 & G3 & G4 & G5); congruence.
Qed.

Lemma translate_decodes_witness :
  Py.getitem GuiDefaultOptions.QUALITY_LABEL (-1) = Some "Best quality"
  /\ GuiDefaultOptions.SPECIAL_LABEL !! (false, false, true)
     = Some "Audio only".
Proof.
  destruct (translate_decodes
              (mkNamespace "" "" "" "" "" "" "" "" false None None
                 (Some "%id%") (Some "_") None "Best quality" "Worst quality"
                 "No Bias" "Only Recoubs" "Audio only")
              (mkCodes (-1) 0 1 2 false false true))
    as (Hq & _ & _ & _ & Hs & _).
  - vm_compute. reflexivity.
  - split; [exact Hq | exact Hs].
Defined.

(** ** The default labels of the dropdown menus *)

Lemma getitem_is_Some {A : Type} (l : list A) (i : Z) :
  is_Some (Py.getitem l i)
  <-> - Z.of_nat (length l) <= i < Z.of_nat (length l).
Proof.
  unfold Py.getitem.
  destruct (Z.ltb_spec i 0) as [Hneg|Hpos].
  - destruct (Z.ltb_spec (i + Z.of_nat (length l)) 0) as [Hlo|Hlo]; simpl.
    + split; [intros [x Hx]; discriminate | lia].
    + destruct (Z.leb_spec (Z.of_nat (length l)) (i + Z.of_nat (length l)))
        as [Hhi|Hhi]; [lia|].
      rewrite lookup_lt_is_Some. lia.
  - destruct (Z.ltb_spec i 0) as [Hlo|Hlo]; [lia|]. simpl.
    destruct (Z.leb_spec (Z.of_nat (length l)) i) as [Hhi|Hhi].
    + split; [intros [x Hx]; discriminate | lia].
    + rewrite lookup_lt_is_Some. lia.
Qed.

Lemma special_label_defined (s v a : bool) :
  is_Some (GuiDefaultOptions.SPECIAL_LABEL !! (s, v, a))
  <-> at_most_one s v a = true.
Proof.
  destruct s, v, a; vm_compute; split;
    try discriminate; try (intros _; eauto; fail);
    intros [x Hx]; discriminate.
Qed.

Lemma quality_label_code (i : Z) (l : string) :
  Py.getitem GuiDefaultOptions.QUALITY_LABEL i = Some l ->
  TranslateToCli.QUALITY_LABEL !! l = Some (if Z.even i then 0 else -1).
Proof.
  intros H.
  assert (Hr : -2 <= i < 2) by (apply (getitem_is_Some
    GuiDefaultOptions.QUALITY_LABEL); eauto).
  assert (Hi : i = -2 \/ i = -1 \/ i = 0 \/ i = 1) by lia.
  repeat destruct Hi as [Hi|Hi]; subst i; vm_compute in H;
    injection H as <-; vm_compute; reflexivity.
Qed.

Lemma aac_label_code (i : Z) (l : string) :
  Py.getitem GuiDefaultOptions.AAC_LABEL i = Some l ->
  TranslateToCli.AAC_LABEL !! l = Some (i mod 4).
Proof.
  intros H.
  assert (Hr : -4 <= i < 4) by (apply (getitem_is_Some
    GuiDefaultOptions.AAC_LABEL); eauto).
  assert (Hi : i = -4 \/ i = -3 \/ i = -2 \/ i = -1
               \/ i = 0 \/ i = 1 \/ i = 2 \/ i = 3) by lia.
  repeat destruct Hi as [Hi|Hi]; subst i; vm_compute in H;
    injection H as <-; vm_compute; reflexivity.
Qed.

Lemma recoub_label_code (i : Z) (l : string) :
  Py.getitem GuiDefaultOptions.RECOUB_LABEL i = Some l ->
  TranslateToCli.RECOUB_LABEL !! l = Some (i mod 3).
Proof.
  intros H.
  assert (Hr : -3 <= i < 3) by (apply (getitem_is_Some
    GuiDefaultOptions.RECOUB_LABEL); eauto).
  assert (Hi : i = -3 \/ i = -2 \/ i = -1 \/ i = 0 \/ i = 1 \/ i = 2) by lia.
  repeat destruct Hi as [Hi|Hi]; subst i; vm_compute in H;
    injection H as <-; vm_compute; reflexivity.
Qed.

Lemma special_label_code (s v a : bool) (l : string) :
  GuiDefaultOptions.SPECIAL_LABEL !! (s, v, a) = Some l ->
  TranslateToCli.SPECIAL_LABEL !! l = Some (s, v, a).
Proof.
  destruct s, v, a; vm_compute; intros H; try discriminate;
    injection H as <-; reflexivity.
Qed.

Lemma menu_defaults_Some (d : defaults) (m : menu_labels) :
  menu_defaults d = Some m
  <-> default_recoubs d = Some (m_recoubs m)
      /\ default_v_quality d = Some (m_v_quality m)
      /\ default_a_quality d = Some (m_a_quality m)
      /\ default_aac d = Some (m_aac m)
      /\ default_special d = Some (m_special m).
Proof.
  unfold menu_defaults.
  destruct (default_recoubs d) as [rc|]; simpl;
    [|split; [discriminate | intros (H & _); discriminate]].
  destruct (default_v_quality d) as [vq|]; simpl;
    [|split; [discriminate | intros (_ & H & _); discriminate]].
  destruct (default_a_quality d) as [aq|]; simpl;
    [|split; [discriminate | intros (_ & _ & H & _); discriminate]].
  destruct (default_aac d) as [ac|]; simpl;
    [|split; [discriminate | intros (_ & _ & _ & H & _); discriminate]].
  destruct (default_special d) as [sp|]; simpl;
    [|split; [discriminate | intros (_ & _ & _ & _ & H); discriminate]].
  destruct m as [rc' vq' aq' ac' sp']. simpl. split.
  - intros H. injection H as -> -> -> -> ->. repeat split.
  - intros (H1 & H2 & H3 & H4 & H5). congruence.
Qed.

(** X4: the default labels of the five dropdown menus can be computed
    exactly when the recoub default lies in -3..2, both quality defaults
    in -2..1, the AAC default in -4..3, and at most one of the defaults
    share, video-only and audio-only is set; otherwise a lookup raises
    while the form is being built. *)
Theorem menu_defaults_defined_iff (d : defaults) :
  is_Some (menu_defaults d)
  <-> -3 <= RECOUBS d < 3 /\ -2 <= V_QUALITY d < 2 /\ -2 <= A_QUALITY d < 2
      /\ -4 <= AAC d < 4
      /\ at_most_one (SHARE d) (V_ONLY d) (A_ONLY d) = true.
Proof.
  rewrite <- special_label_defined.
  change (-3 <= RECOUBS d < 3) with
    (- Z.of_nat (length GuiDefaultOptions.RECOUB_LABEL) <= RECOUBS d
     < Z.of_nat (length GuiDefaultOptions.RECOUB_LABEL)).
  change (-2 <= V_QUALITY d < 2) with
    (- Z.of_nat (length GuiDefaultOptions.QUALITY_LABEL) <= V_QUALITY d
     < Z.of_nat (length GuiDefaultOptions.QUALITY_LABEL)).
  change (-2 <= A_QUALITY d < 2) with
    (- Z.of_nat (length GuiDefaultOptions.QUALITY_LABEL) <= A_QUALITY d
     < Z.of_nat (length GuiDefaultOptions.QUALITY_LABEL)).
  change (-4 <= AAC d < 4) with
    (- Z.of_nat (length GuiDefaultOptions.AAC_LABEL) <= AAC d
     < Z.of_nat (length GuiDefaultOptions.AAC_LABEL)).
  rewrite <- !getitem_is_Some. split.
  - intros [m Hm]. apply menu_defaults_Some in Hm as (H1 & H2 & H3 & H4 & H5).
    unfold default_recoubs, default_v_quality, default_a_quality,
      default_aac, default_special in *.
    rewrite H1, H2, H3, H4, H5. repeat split; eauto.
  - intros ([rc H1] & [vq H2] & [aq H3] & [ac H4] & [sp H5]).
    exists (mkMenu rc vq aq ac sp). now apply menu_defaults_Some.
Qed.

(** X5: a form whose dropdown menus are left at their default labels
    always translates: the qualities come back as 0 for an even default
    and -1 for an odd one, the AAC and recoub defaults come back reduced
    modulo 4 and 3, and the three flags come back as they were; defaults
    that are already table codes come back unchanged. *)
Theorem menu_defaults_translate (d : defaults) (m : menu_labels)
    (a : Namespace) :
  menu_defaults d = Some m ->
  translate_to_cli (with_menus m a)
  = Some (mkCodes (if Z.even (V_QUALITY d) then 0 else -1)
                  (if Z.even (A_QUALITY d) then 0 else -1)
                  (AAC d mod 4) (RECOUBS d mod 3)
                  (SHARE d) (V_ONLY d) (A_ONLY d))
  /\ ((V_QUALITY d = 0 \/ V_QUALITY d = -1) ->
      (A_QUALITY d = 0 \/ A_QUALITY d = -1) ->
      0 <= AAC d <= 3 -> 0 <= RECOUBS d <= 2 ->
      translate_to_cli (with_menus m a)
      = Some (mkCodes (V_QUALITY d) (A_QUALITY d) (AAC d) (RECOUBS d)
                      (SHARE d) (V_ONLY d) (A_ONLY d))).
Proof.
  intros Hm. apply menu_defaults_Some in Hm as (H1 & H2 & H3 & H4 & H5).
  assert (Ht : translate_to_cli (with_menus m a)
               = Some (mkCodes (if Z.even (V_QUALITY d) then 0 else -1)
                         (if Z.even (A_QUALITY d) then 0 else -1)
                         (AAC d mod 4) (RECOUBS d mod 3)
                         (SHARE d) (V_ONLY d) (A_ONLY d))).
  { apply translate_Some. destruct a. simpl.
    split; [now apply quality_label_code|].
    split; [now apply quality_label_code|].
    split; [now apply aac_label_code|].
    split; [now apply recoub_label_code|].
    now apply special_label_code. }
  split; [exact Ht|].
  intros Hv Ha Hac Hrc. rewrite Ht.
  rewrite (Z.mod_small (AAC d) 4) by lia.
  rewrite (Z.mod_small (RECOUBS d) 3) by lia.
  destruct Hv as [-> | ->], Ha as [-> | ->]; reflexivity.
Qed.

Lemma menu_defaults_translate_witness :
  translate_to_cli
    (with_menus (mkMenu "Only Recoubs" "Best quality" "Worst quality"
                        "Only AAC" "Share") blank_form)
  = Some (mkCodes (-1) 0 3 2 true false false).
Proof.
  apply (menu_defaults_translate
           (mkDefaults None "." (-1) 1 (-2) (-1) true false false false)
           (mkMenu "Only Recoubs" "Best quality" "Worst quality"
                   "Only AAC" "Share") blank_form).
  vm_compute. reflexivity.
Defined.

(** ** What normalization establishes and what it leaves alone *)

(** X6: after normalization the naming template is never the token
    "%id%", the tag separator is never the keyword "space", and the
    fallback character is a string other than "space" (never unset). *)
Theorem normalize_postcondition (a : Namespace) :
  name_template (normalize a) <> Some "%id%"
  /\ tag_sep (normalize a) <> Some "space"
  /\ fallback_char (normalize a) <> None
  /\ fallback_char (normalize a) <> Some "space".
Proof.
  rewrite normalize_name_template_field, normalize_tag_sep_field,
    normalize_fallback_char_field.
  destruct a as [? ? ? ? ? ? ? ? ? ? ? nt ts fc ? ? ? ? ?].
  repeat split; rule_cases.
Qed.

Lemma normalize_frame (a : Namespace) :
  normalize a
  = mkNamespace (urls a) (ids a) (lists a) (channels a) (tags a)
      (searches a) (communities a) (stories a) (hot a) (random a)
      (archive a) (name_template (normalize a)) (tag_sep (normalize a))
      (fallback_char (normalize a)) (v_quality a) (a_quality a) (aac a)
      (recoubs a) (special a).
Proof. destruct a. rule_cases. Qed.

(** X7: normalization touches the naming template, the tag separator and
    the fallback character only: the input list, the archive content and
    the translated codes are the same whether they are computed from the
    namespace before or after it. *)
Theorem normalize_leaves_rest (mi : string -> input_item)
    (fs : gmap string node) (a : Namespace) :
  build_input mi (normalize a) = build_input mi a
  /\ load_archive fs (archive (normalize a)) = load_archive fs (archive a)
  /\ translate_to_cli (normalize a) = translate_to_cli a.
Proof. rewrite normalize_frame. destruct a. repeat split. Qed.

(** ** More on the input list *)

Lemma field_tokens_cons_sep (rest : string) :
  field_tokens (String "," rest) = field_tokens rest.
Proof.
  unfold field_tokens. simpl.
  now rewrite filter_cons_False by (simpl; congruence).
Qed.

Lemma field_tokens_cons_other (c : ascii) (rest : string) :
  Ascii.eqb c "," = false -> field_tokens (String c rest) <> [].
Proof.
  intros Hc. unfold field_tokens. simpl. rewrite Hc.
  destruct (Py.split "," rest) as [|tok toks];
    rewrite filter_cons_True by reflexivity; discriminate.
Qed.

Lemma field_tokens_nil_iff (field : string) :
  field_tokens field = [] <-> only_separators field = true.
Proof.
  split; [|apply field_tokens_separators].
  induction field as [|c rest IH]; [reflexivity|]. simpl.
  destruct (Ascii.eqb c ",") eqn:Hc.
  - apply Ascii.eqb_eq in Hc as ->. rewrite field_tokens_cons_sep. exact IH.
  - intros H. now apply field_tokens_cons_other in H.
Qed.

Lemma map_nil_iff {A B : Type} (f : A -> B) (l : list A) :
  map f l = [] <-> l = [].
Proof. destruct l; simpl; split; congruence. Qed.

Lemma replicate_nil_iff {A : Type} (n : nat) (x : A) :
  replicate n x = [] <-> n = O.
Proof. destruct n; simpl; split; congruence. Qed.

(** X8: the input list is empty exactly when every text field consists
    of commas only (or is empty), the hot flag is off, and the random
    count is unset or not positive. *)
Theorem input_empty_iff (mi : string -> input_item) (a : Namespace) :
  build_input mi a = []
  <-> only_separators (urls a) = true /\ only_separators (ids a) = true
      /\ only_separators (lists a) = true
      /\ only_separators (channels a) = true
      /\ only_separators (tags a) = true
      /\ only_separators (searches a) = true
      /\ only_separators (communities a) = true
      /\ only_separators (stories a) = true
      /\ hot a = false
      /\ (random a = None \/ exists n, random a = Some n /\ n <= 0).
Proof.
  rewrite build_input_app, !app_nil, !map_nil_iff, !field_tokens_nil_iff,
    replicate_nil_iff.
  assert (Hhot : (if hot a then [HotSection] else []) = [] <-> hot a = false).
  { destruct (hot a); split; congruence. }
  assert (Hrand : random_repeats (random a) = O
                  <-> random a = None
                      \/ exists n, random a = Some n /\ n <= 0).
  { destruct (random a) as [n|]; simpl.
    - split.
      + intros H. right. exists n. split; [reflexivity | lia].
      + intros [H|(n' & H & Hle)]; [discriminate|].
        injection H as <-. lia.
    - split; [now left | reflexivity]. }
  rewrite Hhot, Hrand. tauto.
Qed.

Lemma split_no_sep (sep : ascii) (s t : string) :
  t ∈ Py.split sep s -> has_char sep t = false.
Proof.
  revert t. induction s as [|c rest IH]; intros t Hin; simpl in Hin.
  - apply list_elem_of_singleton in Hin as ->. reflexivity.
  - destruct (Ascii.eqb c sep) eqn:Hc.
    + apply elem_of_cons in Hin as [->|Hin]; [reflexivity | now apply IH].
    + destruct (Py.split sep rest) as [|tok toks] eqn:Hs.
      * apply list_elem_of_singleton in Hin as ->. simpl. now rewrite Hc.
      * apply elem_of_cons in Hin as [->|Hin].
        -- simpl. rewrite Hc. simpl. apply IH. now left.
        -- apply IH. now right.
Qed.

Lemma split_length (sep : ascii) (s : string) :
  length (Py.split sep s) = S (count_char sep s).
Proof.
  induction s as [|c rest IH]; [reflexivity|]. simpl.
  destruct (Ascii.eqb c sep); simpl; [now rewrite IH|].
  destruct (Py.split sep rest); simpl in *; congruence.
Qed.

(** X9: no token of a field contains a comma, so an element of the input
    list that carries a payload either is a result of [mapped_input] on a
    URL token or has a payload without a comma. *)
Theorem payload_has_no_comma (mi : string -> input_item) (a : Namespace)
    (x : input_item) (s : string) :
  x ∈ build_input mi a -> payload x = Some s ->
  (exists u, u ∈ field_tokens (urls a) /\ x = mi u)
  \/ has_char "," s = false.
Proof.
  intros Hin Hp. rewrite build_input_app, !elem_of_app, !elem_of_map in Hin.
  assert (Htok : forall field t,
             t ∈ field_tokens field -> has_char "," t = false).
  { intros field t Ht. apply elem_of_field_tokens in Ht as [Ht _].
    now apply split_no_sep in Ht. }
  destruct Hin as [Hin|[Hin|[Hin|[Hin|[Hin|[Hin|[Hin|[Hin|[Hin|Hin]]]]]]]]].
  - now left.
  - destruct Hin as (t & Ht & ->). injection Hp as <-. right. eauto.
  - destruct Hin as (t & Ht & ->). injection Hp as <-. right. eauto.
  - destruct Hin as (t & Ht & ->). injection Hp as <-. right. eauto.
  - destruct Hin as (t & Ht & ->). injection Hp as <-. right. eauto.
  - destruct Hin as (t & Ht & ->). injection Hp as <-. right. eauto.
  - destruct Hin as (t & Ht & ->). injection Hp as <-. right. eauto.
  - destruct Hin as (t & Ht & ->). injection Hp as <-. right. eauto.
  - destruct (hot a); [|now apply elem_of_nil in Hin].
    apply list_elem_of_singleton in Hin as ->. discriminate.
  - apply elem_of_replicate in Hin as [-> _]. discriminate.
Qed.

Lemma payload_has_no_comma_witness :
  (exists u, u ∈ field_tokens (urls (set_channels "a b,c" blank_form))
             /\ Channel "a b" = Str u)
  \/ has_char "," "a b" = false.
Proof.
  apply (payload_has_no_comma Str (set_channels "a b,c" blank_form)
           (Channel "a b") "a b").
  - vm_compute. constructor.
  - reflexivity.
Defined.

(** X10: a field with k commas is cut into k + 1 pieces, so it adds at
    most k + 1 elements to the input list. *)
Theorem field_tokens_bound (field : string) :
  length (Py.split "," field) = S (count_char "," field)
  /\ (length (field_tokens field) <= S (count_char "," field))%nat.
Proof.
  split; [apply split_length|].
  rewrite <- split_length. unfold field_tokens. apply length_filter.
Qed.

(** ** More on the archive content *)

Lemma has_lf_has_char (s : string) : has_lf s = has_char "010" s.
Proof. induction s as [|c s IH]; simpl; congruence. Qed.

Lemma has_char_app (c : ascii) (s t : string) :
  has_char c (s +:+ t) = has_char c s || has_char c t.
Proof.
  induction s as [|c' s IH]; [reflexivity|].
  rewrite app_cons. simpl. rewrite IH. apply orb_assoc.
Qed.

Lemma has_char_strip (c : ascii) (s : string) :
  has_char c (Py.strip s) = true -> has_char c s = true.
Proof.
  intros H. destruct (strip_decomp s) as (l & r & _ & _ & Hs & _).
  rewrite Hs, !has_char_app, H. now rewrite orb_true_r.
Qed.

Lemma has_char_file_lines (c : ascii) (text l : string) :
  l ∈ file_lines text -> has_char c l = true -> has_char c text = true.
Proof.
  revert l. induction text as [|c' text IH]; intros l Hin Hl; simpl in Hin.
  - now apply elem_of_nil in Hin.
  - simpl. destruct (Ascii.eqb c' "010") eqn:Hc.
    + apply elem_of_cons in Hin as [->|Hin].
      * simpl in Hl. now rewrite orb_false_r in Hl; rewrite Hl.
      * rewrite (IH l Hin Hl). apply orb_true_r.
    + destruct (file_lines text) as [|l0 ls] eqn:Hlines.
      * apply list_elem_of_singleton in Hin as ->.
        simpl in Hl. rewrite orb_false_r in Hl. now rewrite Hl.
      * apply elem_of_cons in Hin as [->|Hin].
        -- simpl in Hl. apply orb_true_iff in Hl as [Hl|Hl];
             [now rewrite Hl|].
           rewrite (IH l0); [apply orb_true_r | now left | exact Hl].
        -- rewrite (IH l); [apply orb_true_r | now right | exact Hl].
Qed.

(** Text mode leaves no carriage return behind. *)
Lemma universal_newlines_no_cr (s : string) :
  has_char "013" (universal_newlines s) = false.
Proof.
  cut (has_char "013" (universal_newlines s) = false
       /\ forall c, has_char "013" (universal_newlines (String c s)) = false).
  { tauto. }
  induction s as [|c' s [IH1 IH2]].
  - split; [reflexivity|]. intros c. simpl.
    destruct (Ascii.eqb c "013") eqn:Hc; simpl; [reflexivity|].
    now rewrite Hc.
  - split; [apply IH2|]. intros c.
    change (universal_newlines (String c (String c' s)))
      with (if Ascii.eqb c "013"
            then if Ascii.eqb c' "010"
                 then String "010" (universal_newlines s)
                 else String "010" (universal_newlines (String c' s))
            else String c (universal_newlines (String c' s))).
    destruct (Ascii.eqb c "013") eqn:Hc.
    + destruct (Ascii.eqb c' "010"); simpl has_char;
        [exact IH1 | apply IH2].
    + change (has_char "013" (String c (universal_newlines (String c' s))))
        with (Ascii.eqb c "013"
              || has_char "013" (universal_newlines (String c' s))).
      rewrite Hc. apply IH2.
Qed.

Lemma lstrip_all_space (s : string) :
  all_space s = true -> Py.lstrip s = "".
Proof.
  induction s as [|c s IH]; [reflexivity|]. simpl.
  intros H. apply andb_true_iff in H as [Hc Hs]. rewrite Hc. now apply IH.
Qed.

Lemma rstrip_all_space (s : string) :
  all_space s = true -> Py.rstrip s = "".
Proof.
  induction s as [|c s IH]; [reflexivity|]. simpl.
  intros H. apply andb_true_iff in H as [Hc Hs].
  rewrite (IH Hs). now rewrite Hc.
Qed.

Lemma rstrip_app_space (s ws : string) :
  all_space ws = true -> Py.rstrip (s +:+ ws) = Py.rstrip s.
Proof.
  intros Hws. induction s as [|c s IH].
  - change ("" +:+ ws) with ws. now apply rstrip_all_space.
  - rewrite app_cons. simpl. now rewrite IH.
Qed.

Lemma strip_app_space (s ws : string) :
  all_space ws = true -> Py.strip (s +:+ ws) = Py.strip s.
Proof.
  intros Hws. unfold Py.strip. induction s as [|c s IH].
  - change ("" +:+ ws) with ws. now rewrite lstrip_all_space.
  - rewrite app_cons. simpl. destruct (Py.isspace c); [exact IH|].
    rewrite <- app_cons. now apply rstrip_app_space.
Qed.

Lemma strip_empty_iff (s : string) :
  Py.strip s = "" <-> all_space s = true.
Proof.
  split.
  - intros H. destruct (strip_decomp s) as (l & r & Hl & Hr & Hs & _).
    rewrite H in Hs. rewrite Hs. now apply all_space_app.
  - intros H. unfold Py.strip. now rewrite lstrip_all_space.
Qed.

(** X11: every entry of the archive content is free of whitespace at
    both ends and contains neither a line feed nor a carriage return. *)
Theorem archive_entries_clean (content x : string) :
  x ∈ stripped_lines content ->
  not_space (first_char x) /\ not_space (last_char x)
  /\ has_lf x = false /\ has_char "013" x = false.
Proof.
  intros Hx. apply elem_of_stripped_lines in Hx as (l & Hl & ->).
  destruct (strip_decomp l) as (_ & _ & _ & _ & _ & Hfirst & Hlast).
  split; [exact Hfirst|]. split; [exact Hlast|]. split.
  - destruct (file_lines_shape _ _ Hl) as (body & Hbody & [-> | ->]).
    + rewrite strip_app_space by reflexivity.
      destruct (has_lf (Py.strip body)) eqn:H; [|reflexivity].
      rewrite has_lf_has_char in H. apply has_char_strip in H.
      rewrite <- has_lf_has_char in H. congruence.
    + destruct (has_lf (Py.strip body)) eqn:H; [|reflexivity].
      rewrite has_lf_has_char in H. apply has_char_strip in H.
      rewrite <- has_lf_has_char in H. congruence.
  - destruct (has_char "013" (Py.strip l)) eqn:H; [|reflexivity].
    apply has_char_strip in H.
    apply (has_char_file_lines _ _ _ Hl) in H.
    now rewrite universal_newlines_no_cr in H.
Qed.

Lemma archive_entries_clean_witness :
  has_lf "id2" = false /\ has_char "013" "id2" = false.
Proof.
  destruct (archive_entries_clean example_archive "id2")
    as (_ & _ & Hlf & Hcr).
  - apply elem_of_stripped_lines. exists ("id2" +:+ LF).
    split; [vm_compute; right; left | reflexivity].
  - split; [exact Hlf | exact Hcr].
Defined.

(** X12: the empty string is an entry of the archive content exactly
    when the file has a line that holds whitespace only (a blank line,
    for one). *)
Theorem archive_blank_line (content : string) :
  "" ∈ stripped_lines content
  <-> exists l, l ∈ file_lines (universal_newlines content)
                /\ all_space l = true.
Proof.
  rewrite elem_of_stripped_lines. split.
  - intros (l & Hl & Hs). exists l. split; [exact Hl|].
    now apply strip_empty_iff.
  - intros (l & Hl & Hs). exists l. split; [exact Hl|].
    symmetry. now apply strip_empty_iff.
Qed.

Lemma file_lines_nil (s : string) : file_lines s = [] -> s = "".
Proof.
  destruct s as [|c s]; [reflexivity|]. simpl.
  destruct (Ascii.eqb c "010"); [discriminate|].
  destruct (file_lines s); discriminate.
Qed.

Lemma last_char_cons (c c' : ascii) (s : string) :
  last_char (String c (String c' s)) = last_char (String c' s).
Proof. reflexivity. Qed.

(** The lines of a text that ends in a line feed are not affected by what
    follows it. *)
Lemma file_lines_app (s t : string) :
  last_char s = Some "010"%char ->
  file_lines (s +:+ t) = file_lines s ++ file_lines t.
Proof.
  induction s as [|c s IH]; [discriminate|]. intros Hlast.
  destruct s as [|c' s].
  - injection Hlast as ->. reflexivity.
  - rewrite last_char_cons in Hlast. specialize (IH Hlast).
    rewrite app_cons.
    change (file_lines (String c (String c' s +:+ t)))
      with (if Ascii.eqb c "010"
            then String c "" :: file_lines (String c' s +:+ t)
            else match file_lines (String c' s +:+ t) with
                 | [] => [String c ""]
                 | l :: ls => String c l :: ls
                 end).
    change (file_lines (String c (String c' s)))
      with (if Ascii.eqb c "010"
            then String c "" :: file_lines (String c' s)
            else match file_lines (String c' s) with
                 | [] => [String c ""]
                 | l :: ls => String c l :: ls
                 end).
    rewrite IH. destruct (Ascii.eqb c "010"); [reflexivity|].
    destruct (file_lines (String c' s)) as [|l ls] eqn:Hl;
      [now apply file_lines_nil in Hl | reflexivity].
Qed.

Lemma universal_newlines_cons2 (c c' : ascii) (s : string) :
  universal_newlines (String c (String c' s))
  = if Ascii.eqb c "013"
    then if Ascii.eqb c' "010"
         then String "010" (universal_newlines s)
         else String "010" (universal_newlines (String c' s))
    else String c (universal_newlines (String c' s)).
Proof. reflexivity. Qed.

(** Newline translation of a text that ends in a line feed: the result
    ends in a line feed, and a text appended to it is translated on its
    own. *)
Lemma universal_newlines_app (s t : string) :
  last_char s = Some "010"%char ->
  universal_newlines (s +:+ t) = universal_newlines s +:+ universal_newlines t
  /\ last_char (universal_newlines s) = Some "010"%char.
Proof.
  cut ((last_char s = Some "010"%char ->
        universal_newlines (s +:+ t)
        = universal_newlines s +:+ universal_newlines t
        /\ last_char (universal_newlines s) = Some "010"%char)
       /\ forall c, last_char (String c s) = Some "010"%char ->
            universal_newlines (String c s +:+ t)
            = universal_newlines (String c s) +:+ universal_newlines t
            /\ last_char (universal_newlines (String c s)) = Some "010"%char).
  { tauto. }
  induction s as [|c' s [IH1 IH2]].
  - split; [discriminate|]. intros c Hc. injection Hc as ->.
    split; reflexivity.
  - split; [apply IH2|]. intros c Hlast.
    rewrite last_char_cons in Hlast.
    rewrite !app_cons, !universal_newlines_cons2.
    destruct (Ascii.eqb c "013").
    + destruct (Ascii.eqb c' "010") eqn:Hc'.
      * destruct s as [|c'' s].
        -- split; reflexivity.
        -- rewrite last_char_cons in Hlast.
           destruct (IH1 Hlast) as [Happ Hl]. rewrite Happ.
           split; [reflexivity|].
           destruct (universal_newlines (String c'' s)); [discriminate|].
           exact Hl.
      * destruct (IH2 c' Hlast) as [Happ Hl].
        rewrite <- app_cons, Happ. split; [reflexivity|].
        destruct (universal_newlines (String c' s)); [discriminate|].
        exact Hl.
    + destruct (IH2 c' Hlast) as [Happ Hl].
      rewrite <- app_cons, Happ. split; [reflexivity|].
      destruct (universal_newlines (String c' s)); [discriminate|].
      exact Hl.
Qed.

(** X13: when the archive file ends in a line feed, text appended to it
    only adds entries: the content of the longer file is the union of
    the content of the old file and that of the appended text. *)
Theorem archive_append (content more : string) :
  last_char content = Some "010"%char ->
  stripped_lines (content +:+ more)
  = stripped_lines content ∪ stripped_lines more.
Proof.
  intros Hlast. unfold stripped_lines.
  destruct (universal_newlines_app content more Hlast) as [-> Hl].
  rewrite file_lines_app by exact Hl.
  rewrite map_app. apply list_to_set_app_L.
Qed.

Lemma archive_append_witness :
  stripped_lines (example_archive +:+ ("id3" +:+ LF))
  = stripped_lines example_archive ∪ stripped_lines ("id3" +:+ LF).
Proof. apply (archive_append example_archive ("id3" +:+ LF)). reflexivity. Defined.

(** ** Runs of the script *)

Lemma load_archive_fs (fs : gmap string node) (archive : option string) :
  (load_archive fs archive).1 = fs.
Proof.
  unfold load_archive, open_read. destruct archive as [p|]; [|reflexivity].
  destruct (Py.truthy p && exists_path fs p); [|reflexivity].
  destruct (fs !! p) as [[content|]|]; reflexivity.
Qed.

(** The run of the script from a fresh trace, case by case, when the form
    can be built. *)
Lemma script_cases (env : Env) (fs : gmap string node) :
  is_Some (menu_defaults (GuiDefaultOptions_init (env_home env)
                            (env_builtin env) (env_config env))) ->
  script env (initial_world fs)
  = if error (GuiDefaultOptions_init (env_home env) (env_builtin env)
                                     (env_config env))
    then (mkWorld fs [EvDefaults; EvForm; EvParseArgs], Exit OPT)
    else
      match load_archive fs (archive (env_form env)) with
      | (fs', Done s) =>
          match translate_to_cli (normalize (env_form env)) with
          | Some c =>
              (mkWorld fs' [EvDefaults; EvForm; EvParseArgs; EvInput;
                            EvArchive; EvEngine],
               Done (mkOptions (normalize (env_form env))
                       (build_input (env_mapped_input env) (env_form env))
                       s c))
          | None =>
              (mkWorld fs' [EvDefaults; EvForm; EvParseArgs; EvInput;
                            EvArchive],
               Raised KeyError)
          end
      | (fs', Exit code) =>
          (mkWorld fs' [EvDefaults; EvForm; EvParseArgs; EvInput], Exit code)
      | (fs', Raised e) =>
          (mkWorld fs' [EvDefaults; EvForm; EvParseArgs; EvInput], Raised e)
      end.
Proof.
  intros Hmenu.
  unfold script, parse_cli, new_defaults, parse_args,
    fill_input, read_archive, proc_bind, proc_ret, sys_exit, raise,
    initial_world. simpl.
  rewrite (build_form_defined _ _ Hmenu). unfold emit. simpl.
  destruct (error _); [reflexivity|]. simpl.
  destruct (load_archive fs (archive (env_form env))) as [fs' [s|code|e]];
    try reflexivity.
  destruct (translate_to_cli (normalize (env_form env))); reflexivity.
Qed.

Lemma load_archive_readable (fs : gmap string node) (archive : option string) :
  (forall p, archive = Some p -> p <> "" ->
             fs !! p = None \/ exists content, fs !! p = Some (File content)) ->
  exists s, load_archive fs archive = (fs, Done s).
Proof.
  intros Hfile. unfold load_archive, exists_path, open_read.
  destruct archive as [p|]; [|eauto].
  destruct (Py.truthy p) eqn:Hp; simpl; [|eauto].
  apply truthy_true in Hp.
  destruct (Hfile p eq_refl Hp) as [->|[content ->]]; eauto.
Qed.

(** X14: when the default labels of the menus exist, the defaults carry
    no error, every menu holds one of its choices and the archive path is
    unset, empty, missing or names a readable file, the script runs
    through all of its steps and starts the engine; the options it hands
    over hold the normalized namespace, the input list, the archive
    content and the codes of the submitted labels. *)
Theorem script_succeeds (env : Env) (fs : gmap string node) :
  is_Some (menu_defaults (GuiDefaultOptions_init (env_home env)
                            (env_builtin env) (env_config env))) ->
  error (GuiDefaultOptions_init (env_home env) (env_builtin env)
                                (env_config env)) = false ->
  v_quality (env_form env) ∈ Choices.quality ->
  a_quality (env_form env) ∈ Choices.quality ->
  aac (env_form env) ∈ Choices.aac ->
  recoubs (env_form env) ∈ Choices.recoubs ->
  special (env_form env) ∈ Choices.special ->
  (forall p, archive (env_form env) = Some p -> p <> "" ->
             fs !! p = None \/ exists content, fs !! p = Some (File content)) ->
  exists opts,
    script env (initial_world fs)
    = (mkWorld fs [EvDefaults; EvForm; EvParseArgs; EvInput; EvArchive;
                   EvEngine], Done opts)
    /\ opt_args opts = normalize (env_form env)
    /\ opt_input opts = build_input (env_mapped_input env) (env_form env)
    /\ load_archive fs (archive (env_form env))
       = (fs, Done (opt_archive_content opts))
    /\ translate_to_cli (env_form env) = Some (opt_codes opts).
Proof.
  intros Hmenu Herr Hvq Haq Hac Hrc Hsp Hfile.
  destruct (load_archive_readable fs _ Hfile) as [s Hs].
  assert (Ht : is_Some (translate_to_cli (env_form env))).
  { apply quality_defined in Hvq as [vq Hvq].
    apply quality_defined in Haq as [aq Haq].
    apply aac_defined in Hac as [ac Hac].
    apply recoub_defined in Hrc as [rc Hrc].
    apply special_defined in Hsp as [[[sh vo] ao] Hsp].
    exists (mkCodes vq aq ac rc sh vo ao). now apply translate_Some. }
  destruct Ht as [c Hc].
  assert (Hn : translate_to_cli (normalize (env_form env)) = Some c).
  { rewrite normalize_frame. rewrite <- Hc.
    destruct (env_form env). reflexivity. }
  exists (mkOptions (normalize (env_form env))
            (build_input (env_mapped_input env) (env_form env)) s c).
  rewrite (script_cases _ _ Hmenu), Herr, Hs, Hn. simpl.
  repeat split; assumption.
Qed.

Lemma script_succeeds_witness :
  exists opts,
    script (mkEnv "/home/user"
              (mkDefaults None "." 1 (-1) (-1) 1 false false false false)
              [] Str (set_channels "a,b" blank_form))
           (initial_world ∅)
    = (mkWorld ∅ [EvDefaults; EvForm; EvParseArgs; EvInput; EvArchive;
                  EvEngine], Done opts)
    /\ opt_input opts = [Channel "a"; Channel "b"].
Proof.
  destruct (script_succeeds
              (mkEnv "/home/user"
                 (mkDefaults None "." 1 (-1) (-1) 1 false false false false)
                 [] Str (set_channels "a,b" blank_form)) ∅)
    as (opts & Hrun & _ & Hinput & _).
  - vm_compute. eauto.
  - reflexivity.
  - vm_compute. left.
  - vm_compute. left.
  - vm_compute. right. left.
  - vm_compute. right. left.
  - vm_compute. left.
  - intros p Hp. discriminate Hp.
  - exists opts. split; [exact Hrun | exact Hinput].
Defined.

(** X15: when the default labels of the menus exist, then however the
    run ends, its first three steps are the defaults, the form and the
    argument parsing, the file system is as it was before, and the engine
    has been started exactly when [parse_cli] returned options. *)
Theorem engine_only_after_parse (env : Env) (fs : gmap string node) :
  is_Some (menu_defaults (GuiDefaultOptions_init (env_home env)
                            (env_builtin env) (env_config env))) ->
  [EvDefaults; EvForm; EvParseArgs]
    `prefix_of` w_trace (script env (initial_world fs)).1
  /\ w_fs (script env (initial_world fs)).1 = fs
  /\ (EvEngine ∈ w_trace (script env (initial_world fs)).1
      <-> exists opts, (script env (initial_world fs)).2 = Done opts).
Proof.
  intros Hmenu. rewrite (script_cases _ _ Hmenu).
  pose proof (load_archive_fs fs (archive (env_form env))) as Hfs.
  destruct (error _); simpl.
  { split; [now exists []|]. split; [reflexivity|]. split.
    - intros H. repeat (apply elem_of_cons in H as [H|H]; [discriminate|]).
      now apply elem_of_nil in H.
    - intros [opts H]. discriminate. }
  destruct (load_archive fs (archive (env_form env))) as [fs' [s|code|e]];
    simpl in *; subst fs'.
  - destruct (translate_to_cli (normalize (env_form env))) as [c|]; simpl.
    + split; [now exists [EvInput; EvArchive; EvEngine]|].
      split; [reflexivity|]. split; [eauto|].
      intros _. do 5 right. left.
    + split; [now exists [EvInput; EvArchive]|]. split; [reflexivity|]. split.
      * intros H. repeat (apply elem_of_cons in H as [H|H]; [discriminate|]).
        now apply elem_of_nil in H.
      * intros [opts H]. discriminate.
  - split; [now exists [EvInput]|]. split; [reflexivity|]. split.
    + intros H. repeat (apply elem_of_cons in H as [H|H]; [discriminate|]).
      now apply elem_of_nil in H.
    + intros [opts H]. discriminate.
  - split; [now exists [EvInput]|]. split; [reflexivity|]. split.
    + intros H. repeat (apply elem_of_cons in H as [H|H]; [discriminate|]).
      now apply elem_of_nil in H.
    + intros [opts H]. discriminate.
Qed.

(** X16: when the default labels of the menus exist, the defaults carry
    no error and the archive path names a
    directory, opening it raises [OSError] once the input list is filled;
    no label is translated and the engine is not started. *)
Theorem archive_directory_raises (env : Env) (fs : gmap string node)
    (p : string) :
  is_Some (menu_defaults (GuiDefaultOptions_init (env_home env)
                            (env_builtin env) (env_config env))) ->
  error (GuiDefaultOptions_init (env_home env) (env_builtin env)
                                (env_config env)) = false ->
  archive (env_form env) = Some p -> p <> "" -> fs !! p = Some Dir ->
  script env (initial_world fs)
  = (mkWorld fs [EvDefaults; EvForm; EvParseArgs; EvInput], Raised OSError).
Proof.
  intros Hmenu Herr Hp Hne Hdir. rewrite (script_cases _ _ Hmenu), Herr, Hp.
  unfold load_archive, exists_path, open_read. rewrite Hdir.
  apply truthy_true in Hne. rewrite Hne. reflexivity.
Qed.

Lemma archive_directory_raises_witness :
  script (mkEnv "/home/user"
            (mkDefaults None "." 1 (-1) (-1) 1 false false false false)
            [] Str
            (mkNamespace "" "" "" "" "" "" "" "" false None (Some "/tmp")
               (Some "%id%") (Some "_") None "Best quality" "Best quality"
               "No Bias" "With Recoubs" "None"))
         (initial_world {["/tmp" := Dir]})
  = (mkWorld {["/tmp" := Dir]} [EvDefaults; EvForm; EvParseArgs; EvInput],
     Raised OSError).
Proof.
  apply (archive_directory_raises _ _ "/tmp").
  - vm_compute. eauto.
  - reflexivity.
  - reflexivity.
  - discriminate.
  - apply lookup_singleton_eq.
Defined.

Lemma engine_only_after_parse_witness :
  w_fs (script (mkEnv "/home/user"
                  (mkDefaults None "." 1 (-1) (-1) 1 false false false false)
                  [CfgMalformed] Str blank_form)
               (initial_world ∅)).1 = ∅.
Proof.
  apply (engine_only_after_parse
           (mkEnv "/home/user"
              (mkDefaults None "." 1 (-1) (-1) 1 false false false false)
              [CfgMalformed] Str blank_form) ∅).
  vm_compute. eauto.
Defined.

(** ** More on the default correction *)

(** X18: whatever defaults were loaded, after the correction the prompt
    default is one of the two choices of the prompt menu, the output path
    is absolute if the home directory is, and correcting a second time
    changes nothing. *)
Theorem correction_invariant (home : string) (d : defaults) :
  (PROMPT (correct_defaults home d) = Some "yes"
   \/ PROMPT (correct_defaults home d) = Some "no")
  /\ (OsPath.isabs home = true ->
      OsPath.isabs (PATH (correct_defaults home d)) = true)
  /\ correct_defaults home (correct_defaults home d)
     = correct_defaults home d.
Proof.
  split; [|split].
  - rewrite correct_defaults_PROMPT.
    destruct (prompt_not_in_yes_no (PROMPT d)) eqn:Hp; [now right|].
    now apply prompt_not_in_yes_no_false in Hp.
  - intros Hhome. rewrite correct_defaults_PATH.
    destruct (OsPath.isabs (PATH d)) eqn:Hp; [exact Hp|].
    now apply join_home_abs.
  - destruct d as [prompt path rc vq aq ac sh vo ao err].
    unfold correct_defaults. simpl.
    destruct (prompt_not_in_yes_no prompt) eqn:Hp;
      destruct (OsPath.isabs path) eqn:Ha;
      repeat (progress (simpl; rewrite ?Hp, ?Ha)); try reflexivity;
      destruct (OsPath.isabs (OsPath.join home "coubs")); reflexivity.
Qed.

Lemma correction_invariant_witness :
  OsPath.isabs
    (PATH (correct_defaults "/home/user"
             (mkDefaults (Some "ask") "out" 1 (-1) (-1) 1
                         false false false false))) = true.
Proof.
  apply (correction_invariant "/home/user"
           (mkDefaults (Some "ask") "out" 1 (-1) (-1) 1
                       false false false false)).
  reflexivity.
Defined.

(** ** A form submitted with its menus untouched *)

(** X19: when the defaults carry no error and the user leaves the five
    menus at the default labels computed from them, the script reaches
    the engine whatever the text fields hold (the archive path being
    unset, empty, missing or the path of a readable file), and the codes
    it hands over are the defaults brought
    into the range of the tables: 0 or -1 for the qualities by parity,
    the AAC and recoub defaults modulo 4 and 3, the three flags as they
    were. *)
Theorem untouched_menus_run (env : Env) (fs : gmap string node)
    (m : menu_labels) (a : Namespace) :
  menu_defaults (GuiDefaultOptions_init (env_home env) (env_builtin env)
                                        (env_config env)) = Some m ->
  error (GuiDefaultOptions_init (env_home env) (env_builtin env)
                                (env_config env)) = false ->
  env_form env = with_menus m a ->
  (forall p, archive a = Some p -> p <> "" ->
             fs !! p = None \/ exists content, fs !! p = Some (File content)) ->
  exists opts,
    script env (initial_world fs)
    = (mkWorld fs [EvDefaults; EvForm; EvParseArgs; EvInput; EvArchive;
                   EvEngine], Done opts)
    /\ opt_input opts = build_input (env_mapped_input env) a
    /\ opt_codes opts
       = mkCodes
           (if Z.even (V_QUALITY (GuiDefaultOptions_init (env_home env)
                                    (env_builtin env) (env_config env)))
            then 0 else -1)
           (if Z.even (A_QUALITY (GuiDefaultOptions_init (env_home env)
                                    (env_builtin env) (env_config env)))
            then 0 else -1)
           (AAC (GuiDefaultOptions_init (env_home env) (env_builtin env)
                   (env_config env)) mod 4)
           (RECOUBS (GuiDefaultOptions_init (env_home env) (env_builtin env)
                       (env_config env)) mod 3)
           (SHARE (GuiDefaultOptions_init (env_home env) (env_builtin env)
                     (env_config env)))
           (V_ONLY (GuiDefaultOptions_init (env_home env) (env_builtin env)
                      (env_config env)))
           (A_ONLY (GuiDefaultOptions_init (env_home env) (env_builtin env)
                      (env_config env))).
Proof.
  intros Hm Herr Hform Hfile.
  assert (Hmenu : is_Some (menu_defaults
                             (GuiDefaultOptions_init (env_home env)
                                (env_builtin env) (env_config env))))
    by eauto.
  pose proof (script_cases env fs Hmenu) as Hcases.
  set (defs := GuiDefaultOptions_init (env_home env) (env_builtin env)
                 (env_config env)) in *.
  apply menu_defaults_Some in Hm as (H1 & H2 & H3 & H4 & H5).
  assert (Harch : archive (env_form env) = archive a).
  { rewrite Hform. now destruct a. }
  assert (Hfile' : forall p, archive (env_form env) = Some p -> p <> "" ->
                             fs !! p = None
                             \/ exists content, fs !! p = Some (File content)).
  { intros p Hp. apply Hfile. now rewrite <- Harch. }
  destruct (load_archive_readable fs _ Hfile') as [s Hs].
  assert (Ht : translate_to_cli (normalize (env_form env))
               = Some (mkCodes (if Z.even (V_QUALITY defs) then 0 else -1)
                         (if Z.even (A_QUALITY defs) then 0 else -1)
                         (AAC defs mod 4) (RECOUBS defs mod 3)
                         (SHARE defs) (V_ONLY defs) (A_ONLY defs))).
  { apply translate_Some. rewrite normalize_frame, Hform. destruct a. simpl.
    split; [now apply quality_label_code|].
    split; [now apply quality_label_code|].
    split; [now apply aac_label_code|].
    split; [now apply recoub_label_code|].
    now apply special_label_code. }
  eexists. rewrite Hcases, Herr, Hs, Ht.
  split; [reflexivity|]. simpl. split; [|reflexivity].
  rewrite Hform. now destruct a.
Qed.

Lemma untouched_menus_run_witness :
  exists opts,
    script (mkEnv "/home/user"
              (mkDefaults None "." (-1) 1 (-2) (-1) true false false false)
              [] Str
              (with_menus (mkMenu "Only Recoubs" "Best quality"
                                  "Worst quality" "Only AAC" "Share")
                          blank_form))
           (initial_world ∅)
    = (mkWorld ∅ [EvDefaults; EvForm; EvParseArgs; EvInput; EvArchive;
                  EvEngine], Done opts)
    /\ opt_codes opts = mkCodes (-1) 0 3 2 true false false.
Proof.
  destruct (untouched_menus_run
              (mkEnv "/home/user"
                 (mkDefaults None "." (-1) 1 (-2) (-1) true false false false)
                 [] Str
                 (with_menus (mkMenu "Only Recoubs" "Best quality"
                                     "Worst quality" "Only AAC" "Share")
                             blank_form))
              ∅
              (mkMenu "Only Recoubs" "Best quality" "Worst quality"
                      "Only AAC" "Share")
              blank_form)
    as (opts & Hrun & _ & Hcodes).
  - vm_compute. reflexivity.
  - reflexivity.
  - reflexivity.
  - intros p Hp. discriminate Hp.
  - exists opts. split; [exact Hrun | exact Hcodes].
Defined.

(** ** A form that cannot be built *)

Lemma build_form_fails (defs : defaults) (w : world) :
  menu_defaults defs = None ->
  build_form defs w = (w, Raised (form_error defs)).
Proof.
  unfold menu_defaults, build_form, form_error, raise.
  destruct (default_recoubs defs); [|reflexivity].
  destruct (default_v_quality defs); [|reflexivity].
  destruct (default_a_quality defs); [|reflexivity].
  destruct (default_aac defs); [|reflexivity].
  destruct (default_special defs); [discriminate | reflexivity].
Qed.

Lemma form_error_KeyError (d : defaults) :
  form_error d = KeyError
  <-> is_Some (default_recoubs d) /\ is_Some (default_v_quality d)
      /\ is_Some (default_a_quality d) /\ is_Some (default_aac d).
Proof.
  unfold form_error.
  destruct (default_recoubs d), (default_v_quality d),
    (default_a_quality d), (default_aac d);
    split; try discriminate; try (intros _; repeat split; eauto; fail);
    try reflexivity;
    intros (H1 & H2 & H3 & H4);
    first [ destruct H1; discriminate | destruct H2; discriminate
          | destruct H3; discriminate | destruct H4; discriminate ].
Qed.

(** X20: when one of the default labels of the menus cannot be looked
    up, the run ends while the form is built, right after the defaults
    are loaded: the arguments are not parsed, the error flag is not
    consulted and the engine is not started.  The exception is
    [KeyError] when the four list indices are in range (only the flag
    triple is missing from its table) and [IndexError] otherwise. *)
Theorem form_lookup_failure (env : Env) (fs : gmap string node) :
  menu_defaults (GuiDefaultOptions_init (env_home env) (env_builtin env)
                                        (env_config env)) = None ->
  script env (initial_world fs)
  = (mkWorld fs [EvDefaults],
     Raised (form_error (GuiDefaultOptions_init (env_home env)
                           (env_builtin env) (env_config env))))
  /\ (form_error (GuiDefaultOptions_init (env_home env) (env_builtin env)
                    (env_config env)) = KeyError
      <-> -3 <= RECOUBS (GuiDefaultOptions_init (env_home env)
                           (env_builtin env) (env_config env)) < 3
          /\ -2 <= V_QUALITY (GuiDefaultOptions_init (env_home env)
                                (env_builtin env) (env_config env)) < 2
          /\ -2 <= A_QUALITY (GuiDefaultOptions_init (env_home env)
                                (env_builtin env) (env_config env)) < 2
          /\ -4 <= AAC (GuiDefaultOptions_init (env_home env)
                          (env_builtin env) (env_config env)) < 4)
  /\ (form_error (GuiDefaultOptions_init (env_home env) (env_builtin env)
                    (env_config env)) = KeyError
      \/ form_error (GuiDefaultOptions_init (env_home env) (env_builtin env)
                       (env_config env)) = IndexError).
Proof.
  intros Hnone.
  set (defs := GuiDefaultOptions_init (env_home env) (env_builtin env)
                 (env_config env)) in *.
  split; [|split].
  - unfold script, parse_cli, new_defaults, proc_bind, proc_ret,
      initial_world. simpl. fold defs.
    now rewrite (build_form_fails defs _ Hnone).
  - rewrite form_error_KeyError.
    unfold default_recoubs, default_v_quality, default_a_quality,
      default_aac.
    rewrite !getitem_is_Some. reflexivity.
  - unfold form_error.
    destruct (default_recoubs defs), (default_v_quality defs),
      (default_a_quality defs), (default_aac defs); auto.
Qed.

Lemma form_lookup_failure_witness :
  script (mkEnv "/home/user"
            (mkDefaults None "." 7 (-1) (-1) 1 false false false false)
            [] Str blank_form)
         (initial_world ∅)
  = (mkWorld ∅ [EvDefaults], Raised IndexError).
Proof.
  apply (form_lookup_failure
           (mkEnv "/home/user"
              (mkDefaults None "." 7 (-1) (-1) 1 false false false false)
              [] Str blank_form) ∅).
  vm_compute. reflexivity.
Defined.
